(** * audio-converter: the conversion orchestration layer of main.go

    The embedding follows the latest text of the program, the one with the
    four routes; main.go also holds two earlier states of it, which have
    the same [convertAudio].

    A shallow embedding of the four converters ([convertAudio],
    [convertGifToMp4], [convertVideoToMp4], [convertImageToPng]), of the
    part of the HTTP handlers that maps their results to responses, and of
    the pieces of the Go standard library they rest on (strings.Split,
    one regular expression, os.CreateTemp, os/exec).

    Conventions
    - a Go [string] is a [string]; a [[]byte] is a [list byte];
    - the world (filesystem, source of temporary names, log of operating
      system calls) is passed explicitly; [defer] is a combinator that runs
      the clean-up on the world the body leaves behind;
    - the external transcoder and the failures of the operating system are
      parameters of the development: every theorem holds for all of them;
    - a Go panic is a result of its own, next to a value and an error;
    - fmt.Printf / fmt.Println logging is not part of the model;
    - float64 is modelled by exact rationals (see [ParseFloat]). *)

From Stdlib Require Import String Ascii List ZArith QArith Lia.
From Stdlib Require Import Strings.Byte DecimalString.
From Stdlib Require Import Btauto.
From stdpp Require Import base gmap strings list.

Local Open Scope string_scope.
Local Open Scope list_scope.

(** ** Go's [strings] package, as far as the converters use it *)

Module GoStrings.

(** [s[n:]] *)
Fixpoint from (n : nat) (s : string) : string :=
  match n, s with
  | O, _ => s
  | S _, EmptyString => EmptyString
  | S n', String _ s' => from n' s'
  end.

(** [s[:n]] *)
Fixpoint upto (n : nat) (s : string) : string :=
  match n, s with
  | O, _ => EmptyString
  | S _, EmptyString => EmptyString
  | S n', String c s' => String c (upto n' s')
  end.

(** [strings.HasPrefix(s, p)] *)
Definition HasPrefix (s p : string) : bool := String.prefix p s.
Arguments HasPrefix : simpl never.

(** [strings.Index(s, sep)]: the position of the first occurrence of [sep]
    in [s], [None] for Go's -1. *)
Fixpoint Index (s sep : string) : option nat :=
  if HasPrefix s sep then Some 0
  else match s with
       | EmptyString => None
       | String _ s' => option_map S (Index s' sep)
       end.

(** The loop of [strings.Count]: find the next occurrence, count it, go on
    behind it.  The fuel bounds the number of iterations; every iteration
    with a non-empty [sep] shortens [s], so [length s] is enough. *)
Fixpoint countLoop (fuel : nat) (s sep : string) : nat :=
  match fuel with
  | O => 0
  | S fuel' =>
      match Index s sep with
      | None => 0
      | Some i => S (countLoop fuel' (from (i + String.length sep) s) sep)
      end
  end.

(** [strings.Count(s, sep)] for a non-empty [sep]: the number of
    non-overlapping occurrences. *)
Definition Count (s sep : string) : nat := countLoop (String.length s) s sep.

(** The loop of [genSplit]:
    [for i < n { m := Index(s, sep); if m < 0 { break };
                 a[i] = s[:m]; s = s[m+len(sep):]; i++ }; a[i] = s]. *)
Fixpoint splitLoop (n : nat) (s sep : string) : list string :=
  match n with
  | O => [s]
  | S n' =>
      match Index s sep with
      | None => [s]
      | Some m => upto m s :: splitLoop n' (from (m + String.length sep) s) sep
      end
  end.

(** [strings.Split(s, sep)] for a non-empty [sep]: [genSplit(s, sep, 0, -1)]
    sets [n = Count(s, sep) + 1] and runs the loop while [i < n - 1]. *)
Definition Split (s sep : string) : list string :=
  splitLoop (Count s sep) s sep.

(** [strings.HasSuffix(s, p)] *)
Fixpoint HasSuffix (s p : string) : bool :=
  String.eqb s p ||
  match s with
  | EmptyString => false
  | String _ s' => HasSuffix s' p
  end.

(** Some byte of [s] is [c]: the loop over the pattern in [prefixAndSuffix]. *)
Fixpoint ContainsByte (s : string) (c : ascii) : bool :=
  match s with
  | EmptyString => false
  | String d s' => if Ascii.eqb c d then true else ContainsByte s' c
  end.

(** [strings.LastIndexByte(s, c)] *)
Fixpoint LastIndexByte (s : string) (c : ascii) : option nat :=
  match s with
  | EmptyString => None
  | String d s' =>
      match LastIndexByte s' c with
      | Some i => Some (S i)
      | None => if Ascii.eqb c d then Some 0 else None
      end
  end.

(** The number of positions of [s] at which [sep] occurs (occurrences may
    overlap): the reading of "occurs k times" that does not go through
    [Index]. *)
Fixpoint occurrences (s sep : string) : nat :=
  (if HasPrefix s sep then 1 else 0) +
  match s with
  | EmptyString => 0
  | String _ s' => occurrences s' sep
  end.

End GoStrings.

(** ** The regular expression of [convertAudio] *)

Module regexp.

(** [\d] of Go's regexp: an ASCII digit. *)
Definition isDigit (c : ascii) : bool :=
  let n := nat_of_ascii c in Nat.leb 48 n && Nat.leb n 57.

(** The longest run of digits at the head of [s], and what follows it. *)
Fixpoint digits (s : string) : string * string :=
  match s with
  | EmptyString => (EmptyString, EmptyString)
  | String c s' =>
      if isDigit c
      then let (d, r) := digits s' in (String c d, r)
      else (EmptyString, s)
  end.

(** A non-empty run of digits followed by the character [c]: the way a
    greedy [\d+] followed by a literal can match, since a shorter run is
    followed by a digit. *)
Definition digitsThen (c : ascii) (s : string) : option (string * string) :=
  match digits s with
  | (EmptyString, _) => None
  | (d, String c' r) => if Ascii.eqb c c' then Some (d, r) else None
  | (_, EmptyString) => None
  end.

(** A match of [(\d+):(\d+):(\d+\.\d+)] that starts at the head of [s]:
    the whole match and the three groups. *)
Definition matchHere (s : string) : option (list string) :=
  match digitsThen ":" s with
  | None => None
  | Some (g1, r1) =>
      match digitsThen ":" r1 with
      | None => None
      | Some (g2, r2) =>
          match digitsThen "." r2 with
          | None => None
          | Some (i3, r3) =>
              match digits r3 with
              | (EmptyString, _) => None
              | (f3, _) =>
                  let g3 := i3 +:+ "." +:+ f3 in
                  Some [g1 +:+ ":" +:+ g2 +:+ ":" +:+ g3; g1; g2; g3]
              end
          end
      end
  end.

(** [re.FindStringSubmatch(s)] for
    [re = regexp.MustCompile(`(\d+):(\d+):(\d+\.\d+)`)]: the leftmost
    match with its groups, [nil] when there is none. *)
Fixpoint FindStringSubmatch (s : string) : list string :=
  match matchHere s with
  | Some m => m
  | None =>
      match s with
      | EmptyString => []
      | String _ s' => FindStringSubmatch s'
      end
  end.

End regexp.

(** ** [strconv.ParseFloat] on the groups of the regular expression *)

Module strconv.

(** The value of a run of decimal digits. *)
Fixpoint decimal (acc : Z) (s : string) : Z :=
  match s with
  | EmptyString => acc
  | String c s' => decimal (10 * acc + (Z.of_nat (nat_of_ascii c) - 48)) s'
  end.

(** [strconv.ParseFloat(s, 64)] for [s] of the shape [\d+] or [\d+\.\d+],
    the only arguments [convertAudio] passes.  The value is the exact
    rational the digits denote: the rounding of float64 to 53 bits and its
    overflow are outside the model.  The source discards the error. *)
Definition ParseFloat (s : string) : Q :=
  let (ip, r) := regexp.digits s in
  match r with
  | String "." f =>
      let (fp, _) := regexp.digits f in
      Qplus (inject_Z (decimal 0 ip))
            (Qmake (decimal 0 fp) (Z.to_pos (10 ^ Z.of_nat (String.length fp))))
  | _ => inject_Z (decimal 0 ip)
  end.

(** The conversion [int(x)] of a float64: truncation towards zero.  The
    value is the exact integer: what the conversion gives for a value
    outside the range of [int] is outside the model. *)
Definition int (x : Q) : Z := Z.quot (Qnum x) (Zpos (Qden x)).

End strconv.

(** ** Results *)

(** What a Go function with an [error] result can do: return a value, return
    an error, or panic. *)
Inductive result (A : Type) : Type :=
| Ok (a : A)
| Err (msg : string)
| Panic (msg : string).
Arguments Ok {A} a.
Arguments Err {A} msg.
Arguments Panic {A} msg.

(** The run-time panic of an index expression [a[i]] with [i >= len(a)]. *)
Definition indexOutOfRange (i len : nat) : string :=
  "runtime error: index out of range ["
  +:+ NilZero.string_of_uint (Nat.to_uint i) +:+ "] with length "
  +:+ NilZero.string_of_uint (Nat.to_uint len).

(** The duration-parsing step of [convertAudio] (the statements after the
    comment "Parsing da duração"), as a function of [errBuffer.String()]. *)
Definition parseDuration (outputText : string) : result Z :=
  let splitTime := GoStrings.Split outputText "time=" in
  if Nat.ltb (length splitTime) 2 then Err "duração não encontrada"
  else
    match splitTime !! 2%nat with
    | None => Panic (indexOutOfRange 2 (length splitTime))
    | Some piece =>
        let matches := regexp.FindStringSubmatch piece in
        match matches with
        | [_; m1; m2; m3] =>
            let hours := strconv.ParseFloat m1 in
            let minutes := strconv.ParseFloat m2 in
            let seconds := strconv.ParseFloat m3 in
            Ok (strconv.int (hours * 3600 + minutes * 60 + seconds)%Q)
        | _ => Err "formato de duração não encontrado"
        end
    end.

(** ** The operating system: files, temporary names, processes *)

(** [exec.Cmd], with the fields the converters set. *)
Module exec.

Record Cmd : Type := {
  Path : string;
  Args : list string;               (* Args[0] is the command name *)
  Stdin : option (list byte);       (* bytes.NewReader(inputData), or nil *)
  Stdout : bool;                    (* a buffer is attached *)
  Stderr : bool                     (* a buffer is attached *)
}.

(** [exec.Command(name, arg...)] *)
Definition Command (name : string) (arg : list string) : Cmd :=
  {| Path := name; Args := name :: arg;
     Stdin := None; Stdout := false; Stderr := false |}.

End exec.

(** The calls that reach the operating system, in the order they happen. *)
Inductive Event : Type :=
| EvCreateTemp (path : string)
| EvWrite (path : string) (data : list byte)
| EvStat (path : string)
| EvReadFile (path : string)
| EvRemove (path : string)
| EvRun (cmd : exec.Cmd).

Record World : Type := {
  fs : gmap string (list byte);   (* the regular files, by path *)
  rand : nat;                     (* how many random numbers were drawn *)
  trace : list Event              (* the calls made so far, oldest first *)
}.

Definition logged (e : Event) (w : World) : World :=
  {| fs := fs w; rand := rand w; trace := trace w ++ [e] |}.

Definition withFs (m : gmap string (list byte)) (w : World) : World :=
  {| fs := m; rand := rand w; trace := trace w |}.

(** The calls that can fail for reasons outside the program. *)
Inductive OsCall : Type :=
| CallOpenFile (path : string)
| CallWrite (path : string)
| CallStat (path : string)
| CallReadFile (path : string).

(** What one run of an external process leaves behind. *)
Record Outcome : Type := {
  exitErr : option string;             (* the error of cmd.Run, if any *)
  stdoutBytes : list byte;
  diagnosticText : string;             (* what it wrote to its stderr *)
  fsAfter : gmap string (list byte)
}.

(** The surroundings of the program: the temporary directory, the random
    numbers behind the names of temporary files, the failures the operating
    system injects (depending on the call and on everything that happened
    before), and the behaviour of the external process. *)
Record Env : Type := {
  TempDir : string;
  random : nat -> nat;
  fault : OsCall -> World -> option string;
  process : exec.Cmd -> gmap string (list byte) -> Outcome
}.

(** Computations over the world that return a [result]. *)
Definition M (A : Type) : Type := World -> result A * World.

Definition ret {A} (a : A) : M A := fun w => (Ok a, w).

Definition fail {A} (msg : string) : M A := fun w => (Err msg, w).

Definition bind {A B} (m : M A) (k : A -> M B) : M B :=
  fun w =>
    match m w with
    | (Ok a, w') => k a w'
    | (Err e, w') => (Err e, w')
    | (Panic e, w') => (Panic e, w')
    end.

Notation "x <- m ;; k" := (bind m (fun x => k))
  (at level 20, m at level 99, k at level 200, only parsing).

(** [v, err := call(); if err != nil { return nil, fmt.Errorf(..., err) }] *)
Definition orReturn {A} (m : M A) (wrap : string -> string) : M A :=
  fun w =>
    match m w with
    | (Err e, w') => (Err (wrap e), w')
    | r => r
    end.

(** [defer cleanup()] followed by [body]: the clean-up runs when the body is
    left, whether by a return or by a panic. *)
Definition defer {A} (cleanup : World -> World) (body : M A) : M A :=
  fun w => let (r, w') := body w in (r, cleanup w').

Module os.
Section WithEnv.

Context (env : Env).

(** [nextRandom()]: the next random number, in decimal. *)
Definition nextRandom (w : World) : string :=
  NilZero.string_of_uint (Nat.to_uint (random env (rand w))).

(** [joinPath(dir, name)] *)
Definition joinPath (dir name : string) : string :=
  if GoStrings.HasSuffix dir "/" then dir +:+ name else dir +:+ "/" +:+ name.

Definition bump (w : World) : World :=
  {| fs := fs w; rand := S (rand w); trace := trace w |}.

(** [prefixAndSuffix(pattern)]: no path separator allowed; the last "*"
    is where the random part goes. *)
Definition prefixAndSuffix (pattern : string) : result (string * string) :=
  if GoStrings.ContainsByte pattern "/" then Err "pattern contains path separator"
  else
    match GoStrings.LastIndexByte pattern "*" with
    | Some pos => Ok (GoStrings.upto pos pattern, GoStrings.from (S pos) pattern)
    | None => Ok (pattern, "")
    end.

(** The loop of [os.CreateTemp]: try names until one does not exist
    (O_CREATE|O_EXCL), at most [tries] times. *)
Fixpoint createLoop (tries : nat) (prefix suffix : string) : M string :=
  fun w =>
    match tries with
    | O => (Err ("createtemp " +:+ prefix +:+ "*" +:+ suffix +:+ ": file already exists"), w)
    | S tries' =>
        let name := prefix +:+ nextRandom w +:+ suffix in
        let w1 := bump w in
        match fs w1 !! name with
        | Some _ => createLoop tries' prefix suffix w1
        | None =>
            match fault env (CallOpenFile name) w1 with
            | Some e => (Err e, w1)
            | None => (Ok name, logged (EvCreateTemp name) (withFs (<[name := []]> (fs w1)) w1))
            end
        end
    end.

(** [if try++; try < 10000 { continue }] *)
Definition maxTries : nat := 100 * 100.

(** [os.CreateTemp(dir, pattern)], returning the name of the new file
    ([File.Name()]); the file is empty. *)
Definition CreateTemp (dir pattern : string) : M string :=
  let dir := if String.eqb dir "" then TempDir env else dir in
  match prefixAndSuffix pattern with
  | Ok (prefix, suffix) => createLoop maxTries (joinPath dir prefix) suffix
  | Err e | Panic e => fail ("createtemp " +:+ pattern +:+ ": " +:+ e)
  end.

(** [File.Write(b)] on the file opened at [path]; returns [len(b)]. *)
Definition Write (path : string) (b : list byte) : M nat :=
  fun w =>
    match fault env (CallWrite path) w with
    | Some e => (Err e, w)
    | None =>
        (Ok (length b),
         logged (EvWrite path b) (withFs (alter (fun old => old ++ b) path (fs w)) w))
    end.

(** [os.Stat(path)], returning [FileInfo.Size()]. *)
Definition Stat (path : string) : M nat :=
  fun w =>
    let w1 := logged (EvStat path) w in
    match fault env (CallStat path) w with
    | Some e => (Err e, w1)
    | None =>
        match fs w !! path with
        | Some content => (Ok (length content), w1)
        | None => (Err ("stat " +:+ path +:+ ": no such file or directory"), w1)
        end
    end.

(** [os.ReadFile(path)] *)
Definition ReadFile (path : string) : M (list byte) :=
  fun w =>
    let w1 := logged (EvReadFile path) w in
    match fault env (CallReadFile path) w with
    | Some e => (Err e, w1)
    | None =>
        match fs w !! path with
        | Some content => (Ok content, w1)
        | None => (Err ("open " +:+ path +:+ ": no such file or directory"), w1)
        end
    end.

(** [os.Remove(path)].  The source discards its error; in the model the
    removal of a file takes effect. *)
Definition Remove (path : string) (w : World) : World :=
  logged (EvRemove path) (withFs (delete path (fs w)) w).

(** [cmd.Run()]: the error, and what the attached buffers hold. *)
Definition Run (cmd : exec.Cmd) (w : World)
  : (option string * list byte * string) * World :=
  let o := process env cmd (fs w) in
  ((exitErr o,
    if exec.Stdout cmd then stdoutBytes o else [],
    if exec.Stderr cmd then diagnosticText o else ""),
   logged (EvRun cmd) (withFs (fsAfter o) w)).

End WithEnv.
End os.

(** ** The converters *)

Section Converters.

Context (env : Env).

(** The argument template [convertAudio] chooses by [switch outputFormat]. *)
Definition audioCommand (outputFormat : string) : exec.Cmd :=
  if String.eqb outputFormat "mp3" then
    exec.Command "ffmpeg" ["-i"; "pipe:0"; "-f"; "mp3"; "pipe:1"]
  else if String.eqb outputFormat "wav" then
    exec.Command "ffmpeg" ["-i"; "pipe:0"; "-f"; "wav"; "pipe:1"]
  else if String.eqb outputFormat "aac" then
    exec.Command "ffmpeg" ["-i"; "pipe:0"; "-c:a"; "aac"; "-b:a"; "128k"; "-f"; "adts"; "pipe:1"]
  else if String.eqb outputFormat "amr" then
    exec.Command "ffmpeg" ["-i"; "pipe:0"; "-c:a"; "libopencore_amrnb"; "-b:a"; "12.2k"; "-f"; "amr"; "pipe:1"]
  else if String.eqb outputFormat "m4a" then
    exec.Command "ffmpeg" ["-i"; "pipe:0"; "-c:a"; "aac"; "-b:a"; "128k"; "-f"; "ipod"; "pipe:1"]
  else
    exec.Command "ffmpeg" ["-i"; "pipe:0"; "-c:a"; "libopus"; "-b:a"; "16k"; "-vbr"; "on";
                           "-compression_level"; "10"; "-ac"; "1"; "-ar"; "16000";
                           "-f"; "ogg"; "pipe:1"].

(** [cmd.Stdin = bytes.NewReader(inputData); cmd.Stdout = outBuffer;
     cmd.Stderr = errBuffer].  The two buffers come from [bufferPool] and
    are reset before use, so they start empty. *)
Definition piped (inputData : list byte) (cmd : exec.Cmd) : exec.Cmd :=
  {| exec.Path := exec.Path cmd; exec.Args := exec.Args cmd;
     exec.Stdin := Some inputData; exec.Stdout := true; exec.Stderr := true |}.

(** [cmd.Stderr = &errBuffer] *)
Definition withStderr (cmd : exec.Cmd) : exec.Cmd :=
  {| exec.Path := exec.Path cmd; exec.Args := exec.Args cmd;
     exec.Stdin := exec.Stdin cmd; exec.Stdout := exec.Stdout cmd;
     exec.Stderr := true |}.

(** [convertAudio(inputData, inputFormat, outputFormat)]; the result is
    the pair of the converted bytes and the duration in seconds. *)
Definition convertAudio (inputData : list byte) (inputFormat outputFormat : string)
  : M (list byte * Z) :=
  fun w =>
    let cmd := piped inputData (audioCommand outputFormat) in
    match os.Run env cmd w with
    | ((Some err, _, errText), w') =>
        (Err ("error during conversion: " +:+ err +:+ ", details: " +:+ errText), w')
    | ((None, convertedData, outputText), w') =>
        match parseDuration outputText with
        | Ok duration => (Ok (convertedData, duration), w')
        | Err e => (Err e, w')
        | Panic e => (Panic e, w')
        end
    end.

(** The routine the source has three times
    ([convertGifToMp4UsingTempFiles], [convertVideoToMp4UsingTempFiles],
    [convertImageToPngUsingTempFiles]): the three texts differ in the
    patterns of the two temporary files, in the argument template and in
    the wording of the error of a failed run, which are the parameters
    here. *)
Definition usingTempFiles
    (inputPattern outputPattern : string)
    (template : string -> string -> list string)
    (runFailed : string)
    (inputData : list byte) : M (list byte) :=
  inputPath <- orReturn (os.CreateTemp env "" inputPattern)
                 (fun e => "error al crear archivo temporal de entrada: " +:+ e) ;;
  defer (os.Remove inputPath) (
    bytesWritten <- orReturn (os.Write env inputPath inputData)
           (fun e => "error al escribir en archivo temporal: " +:+ e) ;;
    outputPath <- orReturn (os.CreateTemp env "" outputPattern)
                    (fun e => "error al crear archivo temporal de salida: " +:+ e) ;;
    defer (os.Remove outputPath) (
      inputInfo <- orReturn (os.Stat env inputPath)
             (fun e => "error al verificar archivo de entrada: " +:+ e) ;;
      let cmd := withStderr (exec.Command "ffmpeg" (template inputPath outputPath)) in
      fun w =>
        match os.Run env cmd w with
        | ((Some err, _, errText), w') =>
            (Err (runFailed +:+ err +:+ ", detalles: " +:+ errText), w')
        | ((None, _, _), w') =>
            (outputInfo <- orReturn (os.Stat env outputPath)
                    (fun e => "error al verificar archivo de salida: " +:+ e) ;;
             outputData <- orReturn (os.ReadFile env outputPath)
                             (fun e => "error al leer archivo de salida: " +:+ e) ;;
             if Nat.eqb (length outputData) 0
             then fail "la conversión produjo un archivo de salida vacío"
             else ret outputData) w'
        end)).

Definition convertGifToMp4UsingTempFiles : list byte -> M (list byte) :=
  usingTempFiles "input-*.gif" "output-*.mp4"
    (fun inputPath outputPath =>
       ["-i"; inputPath; "-movflags"; "faststart"; "-pix_fmt"; "yuv420p";
        "-vf"; "scale=trunc(iw/2)*2:trunc(ih/2)*2"; "-f"; "mp4";
        "-c:v"; "libx264"; "-preset"; "ultrafast"; "-crf"; "23"; "-y"; outputPath])
    "error en conversión con archivos temporales: ".

(** [convertGifToMp4(inputData)]: the guard on the empty payload, then
    always the temporary files ("MP4 ... requiere seeking que no es
    posible con pipes").  The slice [inputData[:headerBytes]] it logs is
    within bounds, [headerBytes] being at most [len(inputData)]. *)
Definition convertGifToMp4 (inputData : list byte) : M (list byte) :=
  if Nat.eqb (length inputData) 0 then fail "datos de entrada vacíos"
  else convertGifToMp4UsingTempFiles inputData.

Definition convertVideoToMp4UsingTempFiles
    (inputData : list byte) (inputFormat : string) : M (list byte) :=
  usingTempFiles ("input-*." +:+ inputFormat) "output-*.mp4"
    (fun inputPath outputPath =>
       ["-i"; inputPath; "-movflags"; "faststart"; "-pix_fmt"; "yuv420p";
        "-c:v"; "libx264"; "-preset"; "ultrafast"; "-crf"; "23";
        "-c:a"; "aac"; "-b:a"; "128k"; "-y"; outputPath])
    "error en conversión de video: "
    inputData.

(** [convertVideoToMp4(inputData, inputFormat)] *)
Definition convertVideoToMp4 (inputData : list byte) (inputFormat : string)
  : M (list byte) :=
  convertVideoToMp4UsingTempFiles inputData inputFormat.

Definition convertImageToPngUsingTempFiles : list byte -> M (list byte) :=
  usingTempFiles "input-*" "output-*.png"
    (fun inputPath outputPath =>
       ["-i"; inputPath; "-f"; "image2"; "-c:v"; "png"; "-y"; outputPath])
    "error en conversión de imagen: ".

(** [convertImageToPng(inputData)]: "Siempre usar archivos temporales para
    la conversión de imágenes". *)
Definition convertImageToPng (inputData : list byte) : M (list byte) :=
  convertImageToPngUsingTempFiles inputData.

End Converters.

(** ** The handlers, from the converter's result to the response *)

Inductive JSON : Type :=
| JString (s : string)
| JNumber (n : Z)
| JBase64 (b : list byte).     (* base64.StdEncoding.EncodeToString(b) *)

(** [c.JSON(status, gin.H{...})] *)
Record Response : Type := {
  status : nat;
  body : list (string * JSON)
}.

(** What a handler reads from the request.  [payload] is what the input
    acquisition ([getInputData], or the fetch of the given URL) comes back
    with: an error or the bytes. *)
Record Request : Type := {
  apikeyHeader : string;
  payload : string + list byte;
  output_format : option string;
  input_format : option string
}.

Definition errorResponse (statusCode : nat) (msg : string) : Response :=
  {| status := statusCode; body := [("error", JString msg)] |}.

(** [validateAPIKey(c)]: [None] when the key is accepted, else the response
    already written.  [apiKey] is the package variable set by [init]. *)
Definition validateAPIKey (apiKey : string) (req : Request) : option Response :=
  if String.eqb apiKey "" then Some (errorResponse 500 "Erro interno no servidor")
  else if String.eqb (apikeyHeader req) "" then Some (errorResponse 401 "API_KEY não fornecida")
  else if negb (String.eqb (apikeyHeader req) apiKey) then Some (errorResponse 401 "API_KEY inválida")
  else None.

Section Handlers.

Context (env : Env) (apiKey : string).

(** [processAudio(c)].  It has no [recover]: a panic of [convertAudio]
    leaves the handler. *)
Definition processAudio (req : Request) : M Response :=
  match validateAPIKey apiKey req with
  | Some r => ret r
  | None =>
      match payload req with
      | inl e => ret (errorResponse 400 e)
      | inr inputData =>
          let outputFormat := default "ogg" (output_format req) in
          let inputFormat := default "ogg" (input_format req) in
          fun w =>
            match convertAudio env inputData inputFormat outputFormat w with
            | (Ok (convertedData, duration), w') =>
                (Ok {| status := 200;
                       body := [("duration", JNumber duration);
                                ("audio", JBase64 convertedData);
                                ("format", JString outputFormat)] |}, w')
            | (Err e, w') => (Ok (errorResponse 500 e), w')
            | (Panic e, w') => (Panic e, w')
            end
      end
  end.

(** The closure [processConversion] of the three other handlers: the
    deferred [recover], the converter, the check of the converted bytes,
    the response with the bytes under [key]. *)
Definition processConversion (conversion : M (list byte)) (key format : string)
  : M Response :=
  fun w =>
    match conversion w with
    | (Panic r, w') =>
        (Ok (errorResponse 500 ("Error interno durante la conversión: " +:+ r)), w')
    | (Err e, w') => (Ok (errorResponse 500 e), w')
    | (Ok convertedData, w') =>
        if Nat.eqb (length convertedData) 0
        then (Ok (errorResponse 500 "la conversión produjo un archivo vacío"), w')
        else (Ok {| status := 200;
                    body := [(key, JBase64 convertedData); ("format", JString format)] |}, w')
    end.

(** [processGifToMp4(c)] *)
Definition processGifToMp4 (req : Request) : M Response :=
  match validateAPIKey apiKey req with
  | Some r => ret r
  | None =>
      match payload req with
      | inl e => ret (errorResponse 400 e)
      | inr inputData => processConversion (convertGifToMp4 env inputData) "video" "mp4"
      end
  end.

(** [processVideoToMp4(c)] *)
Definition processVideoToMp4 (req : Request) : M Response :=
  match validateAPIKey apiKey req with
  | Some r => ret r
  | None =>
      let inputFormat := default "mp4" (input_format req) in
      match payload req with
      | inl e => ret (errorResponse 400 e)
      | inr inputData =>
          processConversion (convertVideoToMp4 env inputData inputFormat) "video" "mp4"
      end
  end.

(** [processImageToPng(c)] *)
Definition processImageToPng (req : Request) : M Response :=
  match validateAPIKey apiKey req with
  | Some r => ret r
  | None =>
      match payload req with
      | inl e => ret (errorResponse 400 e)
      | inr inputData => processConversion (convertImageToPng env inputData) "image" "png"
      end
  end.

End Handlers.

(** ** The four conversion operations and what a run of one shows *)

(** The operations [main] routes to, with the format tags they take. *)
Inductive Operation : Type :=
| Audio (inputFormat outputFormat : string)    (* /process-audio *)
| GifToMp4                                     (* /gif-to-mp4 *)
| VideoToMp4 (inputFormat : string)            (* /video-to-mp4 *)
| ImageToPng.                                  (* /convert-image-to-png *)

(** The converter behind each operation, as far as the bytes go. *)
Definition convert (env : Env) (op : Operation) (inputData : list byte) : M (list byte) :=
  match op with
  | Audio inputFormat outputFormat =>
      r <- convertAudio env inputData inputFormat outputFormat ;; ret (fst r)
  | GifToMp4 => convertGifToMp4 env inputData
  | VideoToMp4 inputFormat => convertVideoToMp4 env inputData inputFormat
  | ImageToPng => convertImageToPng env inputData
  end.

Definition isAudio (op : Operation) : bool :=
  match op with Audio _ _ => true | _ => false end.

(** The argument behind the first occurrence of [flag]. *)
Fixpoint valueOf (flag : string) (args : list string) : option string :=
  match args with
  | [] => None
  | a :: rest => if String.eqb a flag then head rest else valueOf flag rest
  end.

(** The container an operation has the transcoder write.  The audio
    conversion names it behind "-f" in the command of its output tag; the
    GIF conversion asks for "-f mp4", the video conversion writes a file
    "output-*.mp4", the image conversion asks for "-f image2". *)
Definition container (op : Operation) : string :=
  match op with
  | Audio _ outputFormat => default "" (valueOf "-f" (exec.Args (audioCommand outputFormat)))
  | GifToMp4 | VideoToMp4 _ => "mp4"
  | ImageToPng => "image2"
  end.

(** The containers of the MP4 family among them, which the source says
    need seeking (the comments in [convertGifToMp4] and [convertVideoToMp4]:
    "para MP4 porque el formato requiere seeking que no es posible con
    pipes"): "mp4" itself and "ipod", the MP4 variant behind the m4a tag. *)
Definition seekRequiring (c : string) : bool :=
  String.eqb c "mp4" || String.eqb c "ipod".

Definition requiresSeeking (op : Operation) : bool :=
  seekRequiring (container op).

(** The calls a computation [m] makes when started in [w]. *)
Definition eventsSince (w w' : World) : list Event :=
  drop (length (trace w)) (trace w').

Definition observe {A} (m : M A) (w : World) : list Event :=
  eventsSince w (snd (m w)).

(** The processes among the calls, the temporary files created, and what
    was written to which file. *)
Definition spawned (evs : list Event) : list exec.Cmd :=
  omap (fun e => match e with EvRun cmd => Some cmd | _ => None end) evs.

Definition artifacts (evs : list Event) : list string :=
  omap (fun e => match e with EvCreateTemp path => Some path | _ => None end) evs.

Definition written (evs : list Event) : list (string * list byte) :=
  omap (fun e => match e with EvWrite path data => Some (path, data) | _ => None end) evs.

#[global] Instance byte_eq_dec : EqDecision byte := Byte.byte_eq_dec.

(** The two ways a command gets the payload [inputData], given the calls
    made [before] it was run:
    - [Pipe]: the payload is on its standard input and its standard output
      is collected, it is told to read "pipe:0" and to write "pipe:1", and
      no temporary file was created;
    - [TempFile]: nothing is attached to its standard input or output, and
      it is told to read one file and to write another, both created as
      temporary files before, the payload written to the one it reads.
    The file it reads is the argument behind "-i", the one it writes the
    last argument.  A command run in neither way has no mode. *)
Inductive IoMode : Type := Pipe | TempFile.

Definition ioMode (inputData : list byte) (before : list Event) (cmd : exec.Cmd)
  : option IoMode :=
  let reads := default "" (valueOf "-i" (exec.Args cmd)) in
  let writes := List.last (exec.Args cmd) "" in
  match exec.Stdin cmd with
  | Some data =>
      if bool_decide (data = inputData /\ exec.Stdout cmd = true /\
                      reads = "pipe:0" /\ writes = "pipe:1" /\
                      artifacts before = [])
      then Some Pipe else None
  | None =>
      if bool_decide (exec.Stdout cmd = false /\ reads <> writes /\
                      reads ∈ artifacts before /\ writes ∈ artifacts before /\
                      (reads, inputData) ∈ written before)
      then Some TempFile else None
  end.

(** The external process echoes its input to its output and exits with
    success, whatever its arguments. *)
Definition echoes (env : Env) : Prop :=
  forall cmd files,
    exitErr (process env cmd files) = None /\
    stdoutBytes (process env cmd files) = default [] (exec.Stdin cmd).

(** ** Concrete surroundings, to run the converters in *)

Module Scenario.

Definition initial : World := {| fs := ∅; rand := 0; trace := [] |}.

Definition noFault : OsCall -> World -> option string := fun _ _ => None.

(** A process that echoes and writes [text] to its diagnostic stream. *)
Definition echo (text : string) : Env :=
  {| TempDir := "/tmp";
     random := fun n => n;
     fault := noFault;
     process := fun cmd files =>
       {| exitErr := None;
          stdoutBytes := default [] (exec.Stdin cmd);
          diagnosticText := text;
          fsAfter := files |} |}.

(** A process that writes nothing to its output and exits with success. *)
Definition mute (text : string) : Env :=
  {| TempDir := "/tmp";
     random := fun n => n;
     fault := noFault;
     process := fun cmd files =>
       {| exitErr := None; stdoutBytes := []; diagnosticText := text;
          fsAfter := files |} |}.

(** A process that writes [content] to the path in its last argument. *)
Definition writer (content : list byte) : Env :=
  {| TempDir := "/tmp";
     random := fun n => n;
     fault := noFault;
     process := fun cmd files =>
       {| exitErr := None; stdoutBytes := []; diagnosticText := "";
          fsAfter := <[List.last (exec.Args cmd) "" := content]> files |} |}.

(** A process that fails. *)
Definition failing : Env :=
  {| TempDir := "/tmp";
     random := fun n => n;
     fault := noFault;
     process := fun cmd files =>
       {| exitErr := Some "exit status 1"; stdoutBytes := [];
          diagnosticText := "Invalid data found when processing input";
          fsAfter := files |} |}.

Definition progress : string :=
  "size=1kB time=00:00:01.00 bitrate=8kbits/s size=2kB time=01:02:03.50 bitrate=8kbits/s".

Definition oneMarker : string := "size=2kB time=01:02:03.50 bitrate=8kbits/s".

Definition request (data : list byte) : Request :=
  {| apikeyHeader := "k"; payload := inr data;
     output_format := None; input_format := None |}.

End Scenario.

(** ** The exit paths of the conversion through temporary files *)

Section ExitPaths.

Context (env : Env).
Context (template : string -> string -> list string) (runFailed : string).
Context (inputData : list byte) (files : gmap string (list byte)).

(** The operating system made [call] fail with [e] at some point. *)
Definition faulted (call : OsCall) (e : string) : Prop :=
  exists w, fault env call w = Some e.

(** The filesystem the transcoder finds: the input file holds the payload,
    the output file is empty. *)
Definition stagedFiles (inputPath outputPath : string) : gmap string (list byte) :=
  <[outputPath := []]> (<[inputPath := inputData]> files).

Definition stagedCommand (inputPath outputPath : string) : exec.Cmd :=
  withStderr (exec.Command "ffmpeg" (template inputPath outputPath)).

Definition stagedOutcome (inputPath outputPath : string) : Outcome :=
  process env (stagedCommand inputPath outputPath) (stagedFiles inputPath outputPath).

(** The filesystem after the two deferred removals. *)
Definition cleanedUp (inputPath outputPath : string) : gmap string (list byte) :=
  delete inputPath (delete outputPath (fsAfter (stagedOutcome inputPath outputPath))).

(** The events up to the run of the transcoder, and the two removals. *)
Definition staging (inputPath outputPath : string) : list Event :=
  [EvCreateTemp inputPath; EvWrite inputPath inputData;
   EvCreateTemp outputPath; EvStat inputPath;
   EvRun (stagedCommand inputPath outputPath)].

Definition removals (inputPath outputPath : string) : list Event :=
  [EvRemove outputPath; EvRemove inputPath].

(** Each [return] of the routine, started on the filesystem [files]: the
    result, the calls made, and the filesystem left behind. *)
Inductive exitPath : result (list byte) -> list Event -> gmap string (list byte) -> Prop :=
| ExitCreateInput e :
    exitPath (Err ("error al crear archivo temporal de entrada: " +:+ e)) [] files
| ExitWrite inputPath e :
    files !! inputPath = None ->
    faulted (CallWrite inputPath) e ->
    exitPath (Err ("error al escribir en archivo temporal: " +:+ e))
      [EvCreateTemp inputPath; EvRemove inputPath] files
| ExitCreateOutput inputPath e :
    files !! inputPath = None ->
    exitPath (Err ("error al crear archivo temporal de salida: " +:+ e))
      [EvCreateTemp inputPath; EvWrite inputPath inputData; EvRemove inputPath] files
| ExitStatInput inputPath outputPath e :
    files !! inputPath = None -> inputPath <> outputPath -> files !! outputPath = None ->
    faulted (CallStat inputPath) e ->
    exitPath (Err ("error al verificar archivo de entrada: " +:+ e))
      ([EvCreateTemp inputPath; EvWrite inputPath inputData;
        EvCreateTemp outputPath; EvStat inputPath] ++ removals inputPath outputPath)
      files
| ExitRunFailed inputPath outputPath err :
    files !! inputPath = None -> inputPath <> outputPath -> files !! outputPath = None ->
    exitErr (stagedOutcome inputPath outputPath) = Some err ->
    exitPath (Err (runFailed +:+ err +:+ ", detalles: "
                   +:+ diagnosticText (stagedOutcome inputPath outputPath)))
      (staging inputPath outputPath ++ removals inputPath outputPath)
      (cleanedUp inputPath outputPath)
| ExitStatOutput inputPath outputPath e :
    files !! inputPath = None -> inputPath <> outputPath -> files !! outputPath = None ->
    exitErr (stagedOutcome inputPath outputPath) = None ->
    faulted (CallStat outputPath) e \/
      fsAfter (stagedOutcome inputPath outputPath) !! outputPath = None ->
    exitPath (Err ("error al verificar archivo de salida: " +:+ e))
      (staging inputPath outputPath ++ [EvStat outputPath] ++ removals inputPath outputPath)
      (cleanedUp inputPath outputPath)
| ExitReadFile inputPath outputPath e :
    files !! inputPath = None -> inputPath <> outputPath -> files !! outputPath = None ->
    exitErr (stagedOutcome inputPath outputPath) = None ->
    faulted (CallReadFile outputPath) e ->
    exitPath (Err ("error al leer archivo de salida: " +:+ e))
      (staging inputPath outputPath ++ [EvStat outputPath; EvReadFile outputPath]
       ++ removals inputPath outputPath)
      (cleanedUp inputPath outputPath)
| ExitEmptyOutput inputPath outputPath :
    files !! inputPath = None -> inputPath <> outputPath -> files !! outputPath = None ->
    exitErr (stagedOutcome inputPath outputPath) = None ->
    fsAfter (stagedOutcome inputPath outputPath) !! outputPath = Some [] ->
    exitPath (Err "la conversión produjo un archivo de salida vacío")
      (staging inputPath outputPath ++ [EvStat outputPath; EvReadFile outputPath]
       ++ removals inputPath outputPath)
      (cleanedUp inputPath outputPath)
| ExitConverted inputPath outputPath outputData :
    files !! inputPath = None -> inputPath <> outputPath -> files !! outputPath = None ->
    exitErr (stagedOutcome inputPath outputPath) = None ->
    fsAfter (stagedOutcome inputPath outputPath) !! outputPath = Some outputData ->
    outputData <> [] ->
    exitPath (Ok outputData)
      (staging inputPath outputPath ++ [EvStat outputPath; EvReadFile outputPath]
       ++ removals inputPath outputPath)
      (cleanedUp inputPath outputPath).

End ExitPaths.

(** ** [encoding/base64]: the standard encoding, with padding *)

Module base64.

Definition encodeStd : string :=
  "ABCDEFGHIJKLMNOPQRSTUVWXYZabcdefghijklmnopqrstuvwxyz0123456789+/".

Definition padChar : ascii := "=".

(** [enc.encode[i]], for [i] below 64 *)
Definition encode (i : N) : ascii :=
  default padChar (String.get (N.to_nat i) encodeStd).

Fixpoint indexByte (s : string) (c : ascii) : option N :=
  match s with
  | EmptyString => None
  | String d s' => if Ascii.eqb c d then Some 0%N else N.succ <$> indexByte s' c
  end.

(** [enc.decodeMap[c]]: the position of [c] in the alphabet, [None] for the
    0xff of every other byte *)
Definition decodeMap (c : ascii) : option N := indexByte encodeStd c.

(** [uint(b)] and [byte(x)] *)
Definition uint (b : byte) : N := Byte.to_N b.

Definition byte (x : N) : Byte.byte := default x00 (Byte.of_N (N.land x 255)).

(** [enc.EncodeToString(src)]: three bytes give four characters; a rest of
    one or two bytes gives two or three characters and the padding. *)
Fixpoint EncodeToString (src : list Byte.byte) : string :=
  match src with
  | [] => EmptyString
  | [b0] =>
      let val := N.shiftl (uint b0) 16 in
      String (encode (N.land (N.shiftr val 18) 63))
        (String (encode (N.land (N.shiftr val 12) 63))
           (String padChar (String padChar EmptyString)))
  | [b0; b1] =>
      let val := N.lor (N.shiftl (uint b0) 16) (N.shiftl (uint b1) 8) in
      String (encode (N.land (N.shiftr val 18) 63))
        (String (encode (N.land (N.shiftr val 12) 63))
           (String (encode (N.land (N.shiftr val 6) 63))
              (String padChar EmptyString)))
  | b0 :: b1 :: b2 :: rest =>
      let val := N.lor (N.lor (N.shiftl (uint b0) 16) (N.shiftl (uint b1) 8)) (uint b2) in
      String (encode (N.land (N.shiftr val 18) 63))
        (String (encode (N.land (N.shiftr val 12) 63))
           (String (encode (N.land (N.shiftr val 6) 63))
              (String (encode (N.land val 63)) (EncodeToString rest))))
  end.

(** [CorruptInputError(offset).Error()] *)
Definition CorruptInputError (offset : nat) : string :=
  "illegal base64 data at input byte " +:+ NilZero.string_of_uint (Nat.to_uint offset).

Definition isNewline (c : ascii) : bool :=
  Ascii.eqb c "010" || Ascii.eqb c "013".

(** [for si < len(src) && (src[si] == '\n' || src[si] == '\r') { si++ }] *)
Fixpoint skipNewlines (src : string) (si : nat) : string * nat :=
  match src with
  | String c rest => if isNewline c then skipNewlines rest (S si) else (src, si)
  | EmptyString => (src, si)
  end.

(** The bytes of a quantum of [dlen] six-bit values:
    [val := dbuf[0]<<18 | dbuf[1]<<12 | dbuf[2]<<6 | dbuf[3]], of which
    [dlen - 1] bytes count. *)
Definition quantumBytes (dbuf : list N) : list Byte.byte :=
  let d i := default 0%N (dbuf !! i) in
  let val := N.lor (N.lor (N.lor (N.shiftl (d 0) 18) (N.shiftl (d 1) 12))
                      (N.shiftl (d 2) 6)) (d 3) in
  take (length dbuf - 1) [byte (N.shiftr val 16); byte (N.shiftr val 8); byte val].

Definition prepend (bs : list Byte.byte) (r : result (list Byte.byte))
  : result (list Byte.byte) :=
  match r with
  | Ok l => Ok (bs ++ l)
  | Err e => Err e
  | Panic e => Panic e
  end.

(** The loop of [Decode] over [decodeQuantum]: [src] is what is left of the
    input from position [si] on, [dbuf] the six-bit values of the quantum
    being read.  Line ends are skipped; the padding ends the input. *)
Fixpoint decodeFrom (src : string) (si : nat) (dbuf : list N) : result (list Byte.byte) :=
  match src with
  | EmptyString =>
      match dbuf with
      | [] => Ok []
      | _ => Err (CorruptInputError (si - length dbuf))
      end
  | String c rest =>
      match decodeMap c with
      | Some out =>
          let dbuf' := dbuf ++ [out] in
          if Nat.eqb (length dbuf') 4
          then prepend (quantumBytes dbuf') (decodeFrom rest (S si) [])
          else decodeFrom rest (S si) dbuf'
      | None =>
          if isNewline c then decodeFrom rest (S si) dbuf
          else if negb (Ascii.eqb c padChar) then Err (CorruptInputError si)
          else
            match length dbuf with
            | 0 | 1 => Err (CorruptInputError si)
            | 2 =>
                match skipNewlines rest (S si) with
                | (EmptyString, si1) => Err (CorruptInputError si1)
                | (String c1 rest1, si1) =>
                    if negb (Ascii.eqb c1 padChar) then Err (CorruptInputError (si1 - 1))
                    else
                      match skipNewlines rest1 (S si1) with
                      | (EmptyString, _) => Ok (quantumBytes dbuf)
                      | (String _ _, si2) => Err (CorruptInputError si2)
                      end
                end
            | _ =>
                match skipNewlines rest (S si) with
                | (EmptyString, _) => Ok (quantumBytes dbuf)
                | (String _ _, si2) => Err (CorruptInputError si2)
                end
            end
      end
  end.

(** [base64.StdEncoding.DecodeString(s)].  On an error Go also returns the
    bytes decoded so far; the callers look at the error only. *)
Definition DecodeString (s : string) : result (list Byte.byte) := decodeFrom s 0 [].

End base64.

(** ** The allowed origins *)

(** The part of [init] that sets [allowedOrigins] from the environment
    variable CORS_ALLOW_ORIGINS. *)
Definition initAllowedOrigins (allowOriginsEnv : string) : list string :=
  if negb (String.eqb allowOriginsEnv "") then GoStrings.Split allowOriginsEnv ","
  else ["*"].

(** [validateOrigin(origin)], with the package variable [allowedOrigins]. *)
Definition validateOrigin (allowedOrigins : list string) (origin : string) : bool :=
  if Nat.eqb (length allowedOrigins) 0
     || (Nat.eqb (length allowedOrigins) 1
         && match allowedOrigins with
            | allowed :: _ => String.eqb allowed "*"
            | [] => false
            end)
  then true
  else existsb (fun allowed => String.eqb allowed origin) allowedOrigins.

(** ** The request as gin presents it, and the network *)

Module gin.

(** The struct the handlers bind a JSON body to. *)
Record jsonData : Type := {
  URL : string;
  InputFormat : string
}.

(** What the handlers read of a [*gin.Context]. *)
Record Context : Type := {
  Header : string -> string;              (* Header.Get: "" when absent *)
  file : option (string + list byte);     (* FormFile("file") found; io.ReadAll of it *)
  postForm : gmap string string;
  query : gmap string string;
  bindJSON : option jsonData              (* ShouldBindJSON without error *)
}.

Definition GetHeader (c : Context) (key : string) : string := Header c key.

Definition PostForm (c : Context) (key : string) : string :=
  default "" (postForm c !! key).

Definition DefaultPostForm (c : Context) (key defaultValue : string) : string :=
  default defaultValue (postForm c !! key).

Definition Query (c : Context) (key : string) : string :=
  default "" (query c !! key).

End gin.

Module http.

(** A GET request, as far as the fetchers shape it. *)
Record Request : Type := {
  URL : string;
  UserAgent : string;        (* "" when the program sets none *)
  Timeout : nat              (* of the client, in seconds; 0 for none *)
}.

Record Response : Type := {
  StatusCode : nat;
  Body : string + list byte  (* reading the body to its end: error or bytes *)
}.

(** The network: the error of [http.NewRequest] for a URL, and what the
    client gets for a request (for [httpClient.Get] the error of a
    malformed URL is among the errors of the round trip). *)
Record Network : Type := {
  NewRequest : string -> option string;
  Do : Request -> string + Response
}.

End http.

(** A value together with the requests sent to obtain it. *)
Definition Fetched (A : Type) : Type := A * list http.Request.

Section Acquisition.

Context (net : http.Network).

Definition browserAgent : string :=
  "Mozilla/5.0 (Windows NT 10.0; Win64; x64) AppleWebKit/537.36 (KHTML, like Gecko) Chrome/91.0.4472.124 Safari/537.36".

(** [fetchAudioFromURL(url)]: the shared client, no check of the status. *)
Definition fetchAudioFromURL (url : string) : Fetched (string + list byte) :=
  let req := {| http.URL := url; http.UserAgent := ""; http.Timeout := 0 |} in
  match http.Do net req with
  | inl err => (inl err, [req])
  | inr resp => (http.Body resp, [req])
  end.

(** The fetcher the source has twice, [fetchGifFromURL] and
    [fetchImageFromURL]: the two texts differ in the wording of the error
    for an empty URL and in the timeout of the client. *)
Definition fetchWithAgent (emptyURL : string) (timeout : nat) (url : string)
  : Fetched (string + list byte) :=
  if String.eqb url "" then (inl emptyURL, [])
  else
    match http.NewRequest net url with
    | Some err => (inl ("error al crear solicitud: " +:+ err), [])
    | None =>
        let req := {| http.URL := url; http.UserAgent := browserAgent;
                      http.Timeout := timeout |} in
        match http.Do net req with
        | inl err => (inl ("error al acceder URL: " +:+ err), [req])
        | inr resp =>
            if negb (Nat.eqb (http.StatusCode resp) 200)
            then (inl ("estado de respuesta inválido: "
                       +:+ NilZero.string_of_uint (Nat.to_uint (http.StatusCode resp))),
                  [req])
            else
              match http.Body resp with
              | inl err => (inl ("error al leer datos: " +:+ err), [req])
              | inr data => (inr data, [req])
              end
        end
    end.

Definition fetchGifFromURL : string -> Fetched (string + list byte) :=
  fetchWithAgent "URL vazia fornecida" 60.

Definition fetchImageFromURL : string -> Fetched (string + list byte) :=
  fetchWithAgent "URL vacía proporcionada" 30.

(** [getInputData(c)]: the upload, else the base64 field, else the URL. *)
Definition getInputData (c : gin.Context) : Fetched (string + list byte) :=
  match gin.file c with
  | Some content => (content, [])
  | None =>
      let base64Data := gin.PostForm c "base64" in
      if negb (String.eqb base64Data "") then
        match base64.DecodeString base64Data with
        | Ok data => (inr data, [])
        | Err e | Panic e => (inl e, [])
        end
      else
        let url := gin.PostForm c "url" in
        if negb (String.eqb url "") then fetchAudioFromURL url
        else (inl "nenhum arquivo, base64 ou URL fornecido", [])
  end.

(** The way the three handlers other than [processAudio] look for their
    input: a URL in the form, else in the query, else in a JSON body, and
    only then [getInputData].  Beside the input, the input format the JSON
    body may carry (used by [processVideoToMp4] only). *)
Definition urlFirst (fetch : string -> Fetched (string + list byte)) (c : gin.Context)
  : Fetched (string + list byte) * option string :=
  let formUrl := gin.PostForm c "url" in
  if negb (String.eqb formUrl "") then (fetch formUrl, None)
  else
    let queryUrl := gin.Query c "url" in
    if negb (String.eqb queryUrl "") then (fetch queryUrl, None)
    else
      match gin.bindJSON c with
      | Some jsonData =>
          if negb (String.eqb (gin.URL jsonData) "")
          then (fetch (gin.URL jsonData),
                if negb (String.eqb (gin.InputFormat jsonData) "")
                then Some (gin.InputFormat jsonData) else None)
          else (getInputData c, None)
      | None => (getInputData c, None)
      end.

End Acquisition.

(** ** The handlers, from the request to the response *)

(** What a handler leaves: the response or the panic, the world, and the
    requests it sent. *)
Definition Served : Type := (result Response * World) * list http.Request.

Module route.
Section WithServer.

Context (net : http.Network) (env : Env) (apiKey : string).

(** The request as [validateAPIKey] and the rest of a handler see it, once
    the input is acquired. *)
Definition acquired (c : gin.Context) (input : string + list byte)
    (inputFormat : option string) : Request :=
  {| apikeyHeader := gin.GetHeader c "apikey";
     payload := input;
     output_format := gin.postForm c !! "output_format";
     input_format := inputFormat |}.

(** [processAudio(c)] *)
Definition processAudio (c : gin.Context) (w : World) : Served :=
  match validateAPIKey apiKey (acquired c (inl "") None) with
  | Some r => ((Ok r, w), [])
  | None =>
      let (input, fetched) := getInputData net c in
      match input with
      | inl e => ((Ok (errorResponse 400 e), w), fetched)
      | inr inputData =>
          let outputFormat := gin.DefaultPostForm c "output_format" "ogg" in
          let inputFormat := gin.DefaultPostForm c "input_format" "ogg" in
          (match convertAudio env inputData inputFormat outputFormat w with
           | (Ok (convertedData, duration), w') =>
               (Ok {| status := 200;
                      body := [("duration", JNumber duration);
                               ("audio", JBase64 convertedData);
                               ("format", JString outputFormat)] |}, w')
           | (Err e, w') => (Ok (errorResponse 500 e), w')
           | (Panic e, w') => (Panic e, w')
           end, fetched)
      end
  end.

(** The body the source has three times, in [processGifToMp4],
    [processVideoToMp4] and [processImageToPng]: the key, the input by
    [urlFirst], a 400 when it cannot be had, else the closure
    [processConversion]. *)
Definition urlFirstHandler
    (fetch : string -> Fetched (string + list byte))
    (conversion : list byte -> option string -> M (list byte))
    (key format : string)
    (c : gin.Context) (w : World) : Served :=
  match validateAPIKey apiKey (acquired c (inl "") None) with
  | Some r => ((Ok r, w), [])
  | None =>
      match urlFirst net fetch c with
      | ((inl e, fetched), _) => ((Ok (errorResponse 400 e), w), fetched)
      | ((inr inputData, fetched), jsonFormat) =>
          (processConversion (conversion inputData jsonFormat) key format w, fetched)
      end
  end.

(** [processGifToMp4(c)] *)
Definition processGifToMp4 : gin.Context -> World -> Served :=
  urlFirstHandler (fetchGifFromURL net)
    (fun inputData _ => convertGifToMp4 env inputData) "video" "mp4".

(** [processVideoToMp4(c)]: the input format is the form field, "mp4" when
    absent, or the one of the JSON body when the URL came from there. *)
Definition processVideoToMp4 (c : gin.Context) : World -> Served :=
  let inputFormat := gin.DefaultPostForm c "input_format" "mp4" in
  urlFirstHandler (fetchAudioFromURL net)
    (fun inputData jsonFormat =>
       convertVideoToMp4 env inputData (default inputFormat jsonFormat))
    "video" "mp4" c.

(** [processImageToPng(c)] *)
Definition processImageToPng : gin.Context -> World -> Served :=
  urlFirstHandler (fetchImageFromURL net)
    (fun inputData _ => convertImageToPng env inputData) "image" "png".

(** [originMiddleware()]: the Origin header, or the Referer when there is
    none; a 403 and [c.Abort()] when it is not allowed, else [c.Next()]. *)
Definition originMiddleware (allowedOrigins : list string)
    (next : gin.Context -> World -> Served) (c : gin.Context) (w : World) : Served :=
  let origin := gin.GetHeader c "Origin" in
  let origin := if String.eqb origin "" then gin.GetHeader c "Referer" else origin in
  if negb (validateOrigin allowedOrigins origin)
  then ((Ok (errorResponse 403 "Origem não permitida"), w), [])
  else next c w.

End WithServer.
End route.

(** ** Notions the properties are stated with *)

(** The argument templates have the input path behind "-i" and end in
    "-y" and the output path. *)
Definition namesItsFiles (template : string -> string -> list string) : Prop :=
  exists middle, forall i o, template i o = ["-i"; i] ++ middle ++ ["-y"; o].

(** The four six-bit values of a 24-bit value, put together again. *)
Definition sextet (k : N) (val : N) : N := N.land (N.shiftr val k) 63.

Definition regroup (val : N) : N :=
  N.lor (N.lor (N.lor (N.shiftl (sextet 18 val) 18) (N.shiftl (sextet 12 val) 12))
           (N.shiftl (sextet 6 val) 6)) (N.land val 63).

(** The key check lets the request of [c] through. *)
Definition keyAccepted (apiKey : string) (c : gin.Context) : bool :=
  match validateAPIKey apiKey (route.acquired c (inl "") None) with
  | None => true
  | Some _ => false
  end.

(** * Properties *)

(** ** The model at work *)

Example Split_two_markers :
  GoStrings.Split "a time=1 time=2" "time=" = ["a "; "1 "; "2"].
Proof. reflexivity. Qed.

Example Split_no_marker : GoStrings.Split "abc" "time=" = ["abc"].
Proof. reflexivity. Qed.

Example Split_adjacent_markers :
  GoStrings.Split "time=time=" "time=" = [""; ""; ""].
Proof. reflexivity. Qed.

Example FindStringSubmatch_leftmost :
  regexp.FindStringSubmatch "12a3:04:05.678 bitrate 9:9:9.9"
  = ["3:04:05.678"; "3"; "04"; "05.678"].
Proof. reflexivity. Qed.

Example FindStringSubmatch_none : regexp.FindStringSubmatch "N/A 1:2:3" = [].
Proof. reflexivity. Qed.

Example parseDuration_third_piece :
  parseDuration "time=time=12a3:04:05.678time=9:9:9.9" = Ok 11045%Z.
Proof. by vm_compute. Qed.

Example parseDuration_not_a_time :
  parseDuration "time=N/A time=N/A" = Err "formato de duração não encontrado".
Proof. by vm_compute. Qed.

Example gif_run_events :
  observe (convertGifToMp4 (Scenario.writer [x07]) [x01; x02]) Scenario.initial
  = [EvCreateTemp "/tmp/input-0.gif";
     EvWrite "/tmp/input-0.gif" [x01; x02];
     EvCreateTemp "/tmp/output-1.mp4";
     EvStat "/tmp/input-0.gif";
     EvRun (withStderr (exec.Command "ffmpeg"
       ["-i"; "/tmp/input-0.gif"; "-movflags"; "faststart"; "-pix_fmt"; "yuv420p";
        "-vf"; "scale=trunc(iw/2)*2:trunc(ih/2)*2"; "-f"; "mp4";
        "-c:v"; "libx264"; "-preset"; "ultrafast"; "-crf"; "23"; "-y";
        "/tmp/output-1.mp4"]));
     EvStat "/tmp/output-1.mp4";
     EvReadFile "/tmp/output-1.mp4";
     EvRemove "/tmp/output-1.mp4";
     EvRemove "/tmp/input-0.gif"].
Proof. by vm_compute. Qed.

Example gif_run_result :
  fst (convertGifToMp4 (Scenario.writer [x07]) [x01; x02] Scenario.initial) = Ok [x07].
Proof. by vm_compute. Qed.

Example video_failed_run :
  fst (convertVideoToMp4 Scenario.failing [x01] "avi" Scenario.initial)
  = Err "error en conversión de video: exit status 1, detalles: Invalid data found when processing input"
  /\ fs (snd (convertVideoToMp4 Scenario.failing [x01] "avi" Scenario.initial)) = ∅.
Proof. by vm_compute. Qed.

Example video_format_with_separator :
  fst (convertVideoToMp4 Scenario.failing [x01] "a/b" Scenario.initial)
  = Err "error al crear archivo temporal de entrada: createtemp input-*.a/b: pattern contains path separator".
Proof. by vm_compute. Qed.

Example image_empty_output :
  fst (processImageToPng (Scenario.writer []) "k" (Scenario.request [x01]) Scenario.initial)
  = Ok (errorResponse 500 "la conversión produjo un archivo de salida vacío").
Proof. by vm_compute. Qed.

(** ** [strings.Split] and the occurrences of the separator *)

Section SplitFacts.

Import GoStrings.

Lemma from_empty n : from n "" = "".
Proof. by destruct n. Qed.

Lemma from_from a b s : from b (from a s) = from (a + b) s.
Proof.
  revert s; induction a as [|a IH]; intros s; simpl; [done|].
  destruct s; simpl; [apply from_empty | apply IH].
Qed.

Lemma occurrences_tail c s sep :
  occurrences s sep <= occurrences (String c s) sep.
Proof. cbn [occurrences]. destruct (HasPrefix _ sep); lia. Qed.

Lemma occurrences_from n s sep :
  occurrences (from n s) sep <= occurrences s sep.
Proof.
  revert s; induction n as [|n IH]; intros s; simpl; [done|].
  destruct s as [|c s]; [done|].
  etrans; [apply IH | apply occurrences_tail].
Qed.

Lemma Index_None s sep : Index s sep = None <-> occurrences s sep = 0.
Proof.
  induction s as [|c s IH]; cbn [Index occurrences];
    destruct (HasPrefix _ sep).
  - split; [done | lia].
  - done.
  - split; [done | lia].
  - cbn [Nat.add]. rewrite <- IH. destruct (Index s sep); cbn; split; done.
Qed.

Lemma Index_Some s sep i :
  Index s sep = Some i ->
  HasPrefix (from i s) sep = true /\ occurrences (from i s) sep = occurrences s sep.
Proof.
  revert i; induction s as [|c s IH]; intros i; cbn [Index].
  - destruct (HasPrefix "" sep) eqn:E; [|done]. intros [= <-]. done.
  - destruct (HasPrefix (String c s) sep) eqn:E.
    + intros [= <-]. done.
    + destruct (Index s sep) as [j|] eqn:Ej; [|done]. cbn. intros [= <-].
      destruct (IH j eq_refl) as [H1 H2]. cbn [from]. split; [done|].
      rewrite H2. cbn [occurrences]. by rewrite E.
Qed.

Lemma HasPrefix_nonempty s sep :
  sep <> "" -> HasPrefix s sep = true -> exists c s', s = String c s'.
Proof.
  intros Hsep. destruct s as [|c s']; [|by eauto].
  destruct sep; [done|]. cbn. done.
Qed.

Lemma countLoop_no_occurrence fuel s sep :
  occurrences s sep = 0 -> countLoop fuel s sep = 0.
Proof.
  intros H. apply Index_None in H. destruct fuel; cbn; [done|]. by rewrite H.
Qed.

Lemma Split_no_occurrence s sep :
  occurrences s sep = 0 -> Split s sep = [s].
Proof.
  intros H. unfold Split, Count. by rewrite countLoop_no_occurrence.
Qed.

Lemma Split_one_occurrence s sep :
  sep <> "" -> occurrences s sep = 1 ->
  exists i, Index s sep = Some i /\
            Split s sep = [upto i s; from (i + String.length sep) s].
Proof.
  intros Hsep H.
  destruct (Index s sep) as [i|] eqn:Ei;
    [| apply Index_None in Ei; lia].
  exists i. split; [done|].
  destruct (Index_Some _ _ _ Ei) as [Hp Ho].
  destruct (HasPrefix_nonempty _ _ Hsep Hp) as (c & t & Ht).
  assert (occurrences (from (i + String.length sep) s) sep = 0) as Hrest.
  { destruct sep as [|d sep']; [done|]. cbn [String.length].
    replace (i + S (String.length sep')) with (i + 1 + String.length sep') by lia.
    rewrite <- !from_from. rewrite Ht. cbn [from].
    pose proof (occurrences_from (String.length sep') t (String d sep')).
    rewrite Ht in Ho, Hp. cbn [occurrences] in Ho. rewrite Hp in Ho. lia. }
  assert (exists n, String.length s = S n) as [n Hn].
  { destruct s; [|by eauto]. rewrite from_empty in Ht. done. }
  unfold Split, Count. rewrite Hn. cbn [countLoop]. rewrite Ei.
  rewrite (countLoop_no_occurrence _ _ _ Hrest). cbn [splitLoop]. by rewrite Ei.
Qed.

Lemma length_from n s : String.length (from n s) = String.length s - n.
Proof.
  revert s; induction n as [|n IH]; intros s; cbn; [lia|].
  destruct s; cbn; [done | apply IH].
Qed.

Lemma HasPrefix_length s sep :
  HasPrefix s sep = true -> String.length sep <= String.length s.
Proof.
  unfold HasPrefix. revert s; induction sep as [|d sep IH]; intros s; [cbn; lia|].
  destruct s as [|c s]; cbn; [done|].
  destruct (ascii_dec d c); [|done]. intros H. apply IH in H. lia.
Qed.

Lemma Index_bound s sep i :
  sep <> "" -> Index s sep = Some i -> i + String.length sep <= String.length s.
Proof.
  intros Hsep Hi. destruct (Index_Some _ _ _ Hi) as [Hp _].
  apply HasPrefix_length in Hp. rewrite length_from in Hp.
  destruct sep; [done|]. cbn in *. lia.
Qed.

(** The fuel of [Count] is enough: more of it changes nothing. *)
Lemma countLoop_fuel sep f1 f2 s :
  sep <> "" -> String.length s <= f1 -> String.length s <= f2 ->
  countLoop f1 s sep = countLoop f2 s sep.
Proof.
  intros Hsep. revert f2 s; induction f1 as [|f1 IH]; intros f2 s H1 H2.
  - destruct s; [|cbn in H1; lia].
    destruct f2; cbn; [done|]. by destruct sep.
  - cbn [countLoop]. destruct (Index s sep) as [i|] eqn:Ei.
    + pose proof (Index_bound _ _ _ Hsep Ei) as Hb.
      assert (0 < String.length sep) by (destruct sep; [done | cbn; lia]).
      destruct f2 as [|f2]; [lia|]. cbn [countLoop]. rewrite Ei. f_equal.
      apply IH; rewrite length_from; lia.
    + destruct f2; cbn [countLoop]; [done|]. by rewrite Ei.
Qed.

(** [Split] returns one piece more than [Count] counts. *)
Lemma Split_length s sep : length (Split s sep) = S (Count s sep).
Proof.
  unfold Split, Count. generalize (String.length s) as fuel.
  intros fuel; revert s; induction fuel as [|fuel IH]; intros s; cbn [countLoop]; [done|].
  destruct (Index s sep) as [i|] eqn:Ei; [|done].
  cbn [splitLoop]. rewrite Ei. cbn [length]. by rewrite IH.
Qed.

End SplitFacts.

(** ** The duration-parsing step *)

Lemma parseDuration_no_marker s :
  GoStrings.occurrences s "time=" = 0 ->
  parseDuration s = Err "duração não encontrada".
Proof.
  intros H. unfold parseDuration. by rewrite (Split_no_occurrence _ _ H).
Qed.

Lemma parseDuration_single_marker s :
  GoStrings.occurrences s "time=" = 1 ->
  parseDuration s = Panic (indexOutOfRange 2 2).
Proof.
  intros H. unfold parseDuration.
  destruct (Split_one_occurrence s "time=" ltac:(done) H) as (i & _ & ->).
  reflexivity.
Qed.

Lemma parseDuration_no_match s piece :
  GoStrings.Split s "time=" !! 2 = Some piece ->
  regexp.FindStringSubmatch piece = [] ->
  parseDuration s = Err "formato de duração não encontrado".
Proof.
  intros Hp Hm. unfold parseDuration. rewrite Hp, Hm.
  apply lookup_lt_Some in Hp.
  destruct (Nat.ltb_spec (length (GoStrings.Split s "time=")) 2); [lia | done].
Qed.

(** ** What the primitives do to the world *)

Section WorldFacts.

Context (env : Env).

Lemma observe_extends {A} (m : M A) w evs :
  trace (snd (m w)) = trace w ++ evs -> observe m w = evs.
Proof.
  intros H. unfold observe, eventsSince. rewrite H. apply drop_app_length.
Qed.

Lemma createLoop_spec tries prefix suffix w :
  match os.createLoop env tries prefix suffix w with
  | (Ok name, w') =>
      trace w' = trace w ++ [EvCreateTemp name] /\ fs w' = <[name := []]> (fs w)
  | (Err _, w') => trace w' = trace w /\ fs w' = fs w
  | (Panic _, _) => False
  end.
Proof.
  revert w; induction tries as [|tries IH]; intros w; cbn [os.createLoop]; [done|].
  destruct (fs (os.bump w) !! _) eqn:E.
  - specialize (IH (os.bump w)).
    destruct (os.createLoop env tries prefix suffix (os.bump w)) as [[name|e|e] w']; done.
  - destruct (fault env _ (os.bump w)); done.
Qed.

Lemma CreateTemp_spec dir pattern w :
  match os.CreateTemp env dir pattern w with
  | (Ok name, w') =>
      trace w' = trace w ++ [EvCreateTemp name] /\ fs w' = <[name := []]> (fs w)
  | (Err _, w') => trace w' = trace w /\ fs w' = fs w
  | (Panic _, _) => False
  end.
Proof.
  unfold os.CreateTemp.
  destruct (os.prefixAndSuffix pattern) as [[prefix suffix]|e|e]; try done.
  apply createLoop_spec.
Qed.

Lemma convertAudio_trace inputData inputFormat outputFormat w :
  trace (snd (convertAudio env inputData inputFormat outputFormat w))
  = trace w ++ [EvRun (piped inputData (audioCommand outputFormat))].
Proof.
  unfold convertAudio, os.Run.
  destruct (exitErr _); [done|].
  destruct (parseDuration _); done.
Qed.

Lemma convertAudio_events inputData inputFormat outputFormat w :
  observe (convertAudio env inputData inputFormat outputFormat) w
  = [EvRun (piped inputData (audioCommand outputFormat))].
Proof. apply observe_extends, convertAudio_trace. Qed.

End WorldFacts.

Section TempFileFacts.

Context (env : Env).

(** Closes one exit path of [usingTempFiles]: the trace is the old one
    followed by explicit events, every file created has been deleted,
    at most the one command was run. *)
Local Ltac exit_path Ht :=
  eexists; cbn; rewrite ?Ht, <- ?app_assoc;
  split; [reflexivity|]; cbn;
  split; [intros p Hp; repeat (destruct Hp as [<-|Hp]); try done;
          (split; [cbn; auto 15 | rewrite ?lookup_delete; repeat case_decide; done]) |];
  split; [by (left + (right; eauto)) |];
  intros out Hout; try discriminate.

Lemma usingTempFiles_spec inputPattern outputPattern template runFailed inputData w :
  let r := usingTempFiles env inputPattern outputPattern template runFailed inputData w in
  exists evs,
    trace (snd r) = trace w ++ evs /\
    (forall p, In p (artifacts evs) -> In (EvRemove p) evs /\ fs (snd r) !! p = None) /\
    (spawned evs = [] \/
     exists inputPath outputPath,
       spawned evs = [withStderr (exec.Command "ffmpeg" (template inputPath outputPath))]) /\
    (forall out, fst r = Ok out -> out <> []).
Proof.
  unfold usingTempFiles, bind, orReturn, defer.
  pose proof (CreateTemp_spec env "" inputPattern w) as H1.
  destruct (os.CreateTemp env "" inputPattern w) as [[inputPath|e|e] w1]; [| | done].
  2:{ destruct H1 as [Ht1 _]. exists []. cbn. rewrite Ht1, app_nil_r.
      split; [done|]. split; [by intros ? []|]. split; [by left | done]. }
  destruct H1 as [Ht1 _].
  unfold os.Write.
  destruct (fault env (CallWrite inputPath) w1); [exit_path Ht1|].
  match goal with |- context [os.CreateTemp env "" outputPattern ?x] => set (w1' := x) end.
  assert (trace w1' = trace w ++ [EvCreateTemp inputPath; EvWrite inputPath inputData]) as Ht1'.
  { subst w1'. cbn. by rewrite Ht1, <- app_assoc. }
  clearbody w1'. clear Ht1 w1.
  pose proof (CreateTemp_spec env "" outputPattern w1') as H2.
  destruct (os.CreateTemp env "" outputPattern w1') as [[outputPath|e|e] w2]; [| | done].
  2:{ destruct H2 as [Ht2 _]. rewrite <- Ht2 in Ht1'. exit_path Ht1'. }
  destruct H2 as [Ht2 _]. rewrite Ht1', <- app_assoc in Ht2. cbn in Ht2. clear Ht1' w1'.
  unfold os.Stat, os.ReadFile, os.Run, ret, fail.
  destruct (fault env (CallStat inputPath) w2); [exit_path Ht2|].
  destruct (fs w2 !! inputPath); [|exit_path Ht2].
  cbn.
  destruct (exitErr _); [exit_path Ht2|].
  cbn.
  destruct (fault env (CallStat outputPath) _); [exit_path Ht2|].
  destruct (fsAfter _ !! outputPath) as [outputData|] eqn:Eout; [|exit_path Ht2].
  cbn.
  destruct (fault env (CallReadFile outputPath) _); [exit_path Ht2|].
  cbn. rewrite Eout.
  destruct outputData as [|b outputData]; cbn; exit_path Ht2.
  by injection Hout as <-.
Qed.

End TempFileFacts.

(** ** The operations as a whole *)

Section OperationFacts.

Context (env : Env).

Lemma convertGifToMp4_empty_rejected w :
  convertGifToMp4 env [] w = (Err "datos de entrada vacíos", w).
Proof. reflexivity. Qed.

Local Ltac by_staged H :=
  match goal with
  | |- context [usingTempFiles _ ?a ?b ?c ?d _] =>
      let evs := fresh "evs" in
      destruct (H a b c d) as (evs & ? & ? & ? & ?);
      exists evs; split; [done|]; split; [done|]; split; [done | eauto]
  end.

Lemma observe_nothing {A} (m : M A) w : snd (m w) = w -> observe m w = [].
Proof.
  intros H. apply observe_extends. by rewrite H, app_nil_r.
Qed.

(** What a run of an operation shows: the events, the files it created
    are gone, the commands it ran. *)
Lemma convert_spec op inputData w :
  let r := convert env op inputData w in
  exists evs,
    observe (convert env op inputData) w = evs /\
    (forall p, In p (artifacts evs) -> In (EvRemove p) evs /\ fs (snd r) !! p = None) /\
    (forall cmd, In cmd (spawned evs) ->
       exec.Stdin cmd = if isAudio op then Some inputData else None) /\
    (isAudio op = false -> forall out, fst r = Ok out -> out <> []).
Proof.
  assert (forall ip op' tpl rf,
    let r := usingTempFiles env ip op' tpl rf inputData w in
    exists evs,
      observe (usingTempFiles env ip op' tpl rf inputData) w = evs /\
      (forall p, In p (artifacts evs) -> In (EvRemove p) evs /\ fs (snd r) !! p = None) /\
      (forall cmd, In cmd (spawned evs) -> exec.Stdin cmd = None) /\
      (forall out, fst r = Ok out -> out <> [])) as Hstaged.
  { intros ip op' tpl rf.
    destruct (usingTempFiles_spec env ip op' tpl rf inputData w)
      as (evs & Ht & Hgone & Hrun & Hout).
    exists evs. split; [by apply observe_extends|].
    split; [done|]. split; [|done].
    intros cmd Hin. destruct Hrun as [Hrun | (ip' & op'' & Hrun)];
      rewrite Hrun in Hin; [done|].
    destruct Hin as [<-|[]]. done. }
  destruct op as [inputFormat outputFormat| |inputFormat|]; cbn [isAudio].
  - exists [EvRun (piped inputData (audioCommand outputFormat))].
    split; [|split; [by intros p []|split; [|done]]].
    + apply observe_extends. cbn [convert]. unfold bind, ret.
      pose proof (convertAudio_trace env inputData inputFormat outputFormat w) as Ht.
      by destruct (convertAudio _ _ _ _ w) as [[?|?|?] ?].
    + by intros cmd [<-|[]].
  - cbn [convert]. unfold convertGifToMp4.
    destruct (Nat.eqb (length inputData) 0).
    + exists []. split; [by apply observe_nothing|]. cbn.
      split; [by intros p []|]. split; [by intros p []|done].
    + unfold convertGifToMp4UsingTempFiles. by_staged Hstaged.
  - cbn [convert]. unfold convertVideoToMp4, convertVideoToMp4UsingTempFiles.
    by_staged Hstaged.
  - cbn [convert]. unfold convertImageToPng, convertImageToPngUsingTempFiles.
    by_staged Hstaged.
Qed.

End OperationFacts.

(** ** The empty payload *)

(** C2 fails on the code at the empty payload: [convertAudio] runs the
    transcoder on it whatever the surroundings, and so do
    [convertVideoToMp4] and [convertImageToPng], which create their two
    temporary files first.  Only [convertGifToMp4] has the guard
    ([convertGifToMp4_empty_rejected]). *)
Theorem empty_payload_reaches_the_transcoder :
  (forall env inputFormat outputFormat w,
     spawned (observe (convertAudio env [] inputFormat outputFormat) w)
     = [piped [] (audioCommand outputFormat)]) /\
  length (spawned (observe (convertVideoToMp4 (Scenario.writer [x07]) [] "mp4")
                     Scenario.initial)) = 1 /\
  fst (convertVideoToMp4 (Scenario.writer [x07]) [] "mp4" Scenario.initial) = Ok [x07] /\
  length (spawned (observe (convertImageToPng (Scenario.writer [x07]) [])
                     Scenario.initial)) = 1 /\
  fst (convertImageToPng (Scenario.writer [x07]) [] Scenario.initial) = Ok [x07].
Proof.
  split.
  - intros. by rewrite convertAudio_events.
  - repeat split; by vm_compute.
Qed.

(** ** The duration *)

(** C3 fails on the code.  A diagnostic text with the one marker
    time=01:02:03.50 makes the duration step panic instead of yielding
    3723, and of several markers the step reads the second, not the last.
    (A text with no marker does give the error: [parseDuration_no_marker].) *)
Theorem duration_marker_misread :
  parseDuration "size=2kB time=01:02:03.50 bitrate=8kbits/s"
  = Panic "runtime error: index out of range [2] with length 2" /\
  fst (convertAudio (Scenario.echo "size=2kB time=01:02:03.50 bitrate=8kbits/s")
         [x01] "ogg" "mp3" Scenario.initial)
  = Panic "runtime error: index out of range [2] with length 2" /\
  parseDuration "time=00:00:01.00 time=00:00:02.00 time=01:02:03.50" = Ok 2%Z /\
  parseDuration "time=00:00:01.00 time=01:02:03.50" = Ok 3723%Z.
Proof. repeat split; by vm_compute. Qed.

(** C4, as the claim has it, fails: the process exits with success and has
    written the converted bytes, its diagnostic text has no marker, and the
    caller gets the error, not the bytes. *)
Lemma missing_duration_discards_converted_bytes :
  exitErr (process (Scenario.echo "") (piped [x01; x02] (audioCommand "mp3"))
             (fs Scenario.initial)) = None /\
  stdoutBytes (process (Scenario.echo "") (piped [x01; x02] (audioCommand "mp3"))
                 (fs Scenario.initial)) = [x01; x02] /\
  GoStrings.occurrences "" "time=" = 0 /\
  fst (convertAudio (Scenario.echo "") [x01; x02] "ogg" "mp3" Scenario.initial)
  = Err "duração não encontrada" /\
  fst (processAudio (Scenario.echo "") "k"
         {| apikeyHeader := "k"; payload := inr [x01; x02];
            output_format := Some "mp3"; input_format := None |} Scenario.initial)
  = Ok (errorResponse 500 "duração não encontrada").
Proof. repeat split; by vm_compute. Qed.

(** C4, as the code has it: when the process exits with success and the
    duration step reports an error, as it does whenever the diagnostic text
    has no time= marker, the conversion is aborted: [convertAudio] returns
    that error and no bytes, and [processAudio] answers 500 with it. *)
Theorem duration_failure_aborts_audio_conversion
    env apiKey req inputData w :
  let inputFormat := default "ogg" (input_format req) in
  let outputFormat := default "ogg" (output_format req) in
  let o := process env (piped inputData (audioCommand outputFormat)) (fs w) in
  validateAPIKey apiKey req = None ->
  payload req = inr inputData ->
  exitErr o = None ->
  (forall e,
     parseDuration (diagnosticText o) = Err e ->
     fst (convertAudio env inputData inputFormat outputFormat w) = Err e /\
     fst (processAudio env apiKey req w) = Ok (errorResponse 500 e)) /\
  (GoStrings.occurrences (diagnosticText o) "time=" = 0 ->
     fst (convertAudio env inputData inputFormat outputFormat w)
     = Err "duração não encontrada" /\
     fst (processAudio env apiKey req w)
     = Ok (errorResponse 500 "duração não encontrada")).
Proof.
  intros inputFormat outputFormat o Hkey Hpay Hexit.
  assert (forall e,
     parseDuration (diagnosticText o) = Err e ->
     fst (convertAudio env inputData inputFormat outputFormat w) = Err e /\
     fst (processAudio env apiKey req w) = Ok (errorResponse 500 e)) as Hgen.
  { intros e He.
    assert (fst (convertAudio env inputData inputFormat outputFormat w) = Err e) as Hconv.
    { unfold convertAudio, os.Run. cbn. fold o. by rewrite Hexit, He. }
    split; [done|].
    unfold processAudio. rewrite Hkey, Hpay. fold outputFormat inputFormat.
    by destruct (convertAudio _ _ _ _ w) as [[[??]|?|?] ?]; cbn in *; simplify_eq. }
  split; [done|].
  intros H0. by apply Hgen, parseDuration_no_marker.
Qed.

Lemma duration_failure_aborts_audio_conversion_witness :
  (forall e,
     parseDuration "" = Err e ->
     fst (convertAudio (Scenario.echo "") [x01; x02] "ogg" "ogg" Scenario.initial) = Err e /\
     fst (processAudio (Scenario.echo "") "k" (Scenario.request [x01; x02]) Scenario.initial)
     = Ok (errorResponse 500 e)) /\
  (GoStrings.occurrences "" "time=" = 0 ->
     fst (convertAudio (Scenario.echo "") [x01; x02] "ogg" "ogg" Scenario.initial)
     = Err "duração não encontrada" /\
     fst (processAudio (Scenario.echo "") "k" (Scenario.request [x01; x02]) Scenario.initial)
     = Ok (errorResponse 500 "duração não encontrada")).
Proof.
  apply (duration_failure_aborts_audio_conversion
           (Scenario.echo "") "k" (Scenario.request [x01; x02]) [x01; x02] Scenario.initial).
  - reflexivity.
  - reflexivity.
  - reflexivity.
Defined.

(** ** Success and the converted bytes *)

(** The three conversions through temporary files do report an empty
    output file as an error. *)
Lemma staged_success_is_not_empty env op inputData w out :
  isAudio op = false ->
  fst (convert env op inputData w) = Ok out -> out <> [].
Proof.
  intros Hop Hout.
  destruct (convert_spec env op inputData w) as (evs & _ & _ & _ & Hne).
  by apply Hne.
Qed.

(** C5 fails on the code for the audio conversion: a transcoder that exits
    with success, writes progress to its diagnostic stream and nothing to
    its output makes [convertAudio] succeed with no bytes, and
    [processAudio] answers 200 with an empty "audio". *)
Theorem audio_success_with_empty_output :
  exitErr (process (Scenario.mute Scenario.progress) (piped [x01] (audioCommand "ogg"))
             (fs Scenario.initial)) = None /\
  fst (convertAudio (Scenario.mute Scenario.progress) [x01] "ogg" "ogg" Scenario.initial)
  = Ok ([], 3723%Z) /\
  fst (processAudio (Scenario.mute Scenario.progress) "k" (Scenario.request [x01])
         Scenario.initial)
  = Ok {| status := 200;
          body := [("duration", JNumber 3723); ("audio", JBase64 []);
                   ("format", JString "ogg")] |}.
Proof. repeat split; by vm_compute. Qed.

(** ** The index into the split diagnostic text *)

(** C6: when "time=" occurs exactly once in the diagnostic text,
    [strings.Split] gives two pieces, the index 2 that the duration step
    reads is out of range, and the step, and with it the audio conversion
    of a process that exited with success, panics: neither a duration nor
    an error comes back. *)
Theorem single_marker_index_out_of_range text :
  GoStrings.occurrences text "time=" = 1 ->
  length (GoStrings.Split text "time=") = 2 /\
  GoStrings.Split text "time=" !! 2 = None /\
  parseDuration text = Panic (indexOutOfRange 2 2) /\
  forall env inputData inputFormat outputFormat w,
    exitErr (process env (piped inputData (audioCommand outputFormat)) (fs w)) = None ->
    diagnosticText (process env (piped inputData (audioCommand outputFormat)) (fs w)) = text ->
    fst (convertAudio env inputData inputFormat outputFormat w)
    = Panic "runtime error: index out of range [2] with length 2".
Proof.
  intros H.
  destruct (Split_one_occurrence text "time=" ltac:(done) H) as (i & _ & Hs).
  split; [by rewrite Hs|]. split; [by rewrite Hs|].
  split; [by apply parseDuration_single_marker|].
  intros env inputData inputFormat outputFormat w Hexit Htext.
  unfold convertAudio, os.Run. cbn. rewrite Hexit, Htext.
  by rewrite (parseDuration_single_marker _ H).
Qed.

Lemma single_marker_index_out_of_range_witness :
  length (GoStrings.Split Scenario.oneMarker "time=") = 2 /\
  GoStrings.Split Scenario.oneMarker "time=" !! 2 = None /\
  parseDuration Scenario.oneMarker = Panic (indexOutOfRange 2 2) /\
  forall env inputData inputFormat outputFormat w,
    exitErr (process env (piped inputData (audioCommand outputFormat)) (fs w)) = None ->
    diagnosticText (process env (piped inputData (audioCommand outputFormat)) (fs w))
    = Scenario.oneMarker ->
    fst (convertAudio env inputData inputFormat outputFormat w)
    = Panic "runtime error: index out of range [2] with length 2".
Proof.
  apply (single_marker_index_out_of_range Scenario.oneMarker).
  reflexivity.
Defined.

(** ** The echoing process *)

(** C7, as the claim has it, fails: a process that echoes its input and
    writes nothing to its diagnostic stream gets the error of the duration
    step as the result, not the input bytes. *)
Lemma echo_without_marker_returns_no_bytes :
  echoes (Scenario.echo "") /\
  fst (convertAudio (Scenario.echo "") [x01; x02] "ogg" "mp3" Scenario.initial)
  = Err "duração não encontrada" /\
  ~ (forall env inputData inputFormat outputFormat w,
       echoes env ->
       exists duration,
         fst (convertAudio env inputData inputFormat outputFormat w)
         = Ok (inputData, duration)).
Proof.
  assert (echoes (Scenario.echo "")) as He by (by intros cmd files).
  split; [done|]. split; [by vm_compute|].
  intros H.
  destruct (H (Scenario.echo "") [x01; x02] "ogg" "mp3" Scenario.initial He) as [d Hd].
  by vm_compute in Hd.
Qed.

(** C7, as the code has it: if the process echoes its input and the
    duration step obtains a duration from its diagnostic text, the
    conversion through the pipes returns exactly the input bytes, with that
    duration. *)
Theorem pipe_roundtrip_when_duration_parses
    env inputData inputFormat outputFormat w duration :
  echoes env ->
  parseDuration
    (diagnosticText (process env (piped inputData (audioCommand outputFormat)) (fs w)))
  = Ok duration ->
  fst (convertAudio env inputData inputFormat outputFormat w) = Ok (inputData, duration).
Proof.
  intros Hecho Hdur.
  destruct (Hecho (piped inputData (audioCommand outputFormat)) (fs w)) as [Hexit Hout].
  unfold convertAudio, os.Run. cbn. rewrite Hexit, Hdur, Hout. done.
Qed.

Lemma pipe_roundtrip_when_duration_parses_witness :
  fst (convertAudio (Scenario.echo Scenario.progress) [x01; x02; x03] "wav" "mp3"
         Scenario.initial)
  = Ok ([x01; x02; x03], 3723%Z).
Proof.
  apply (pipe_roundtrip_when_duration_parses (Scenario.echo Scenario.progress)).
  - intros cmd files. split; reflexivity.
  - vm_compute. reflexivity.
Defined.

(** ** The temporary files *)

(** C8: every temporary file an operation creates, the input file and the
    output file of a conversion through temporary files, is removed before
    the operation is left, on every exit path: [os.Remove] is called on it
    and it is absent from the filesystem afterwards, whatever the result,
    the failures of the operating system and the behaviour of the
    process. *)
Theorem temp_artifacts_removed env op inputData w p :
  In p (artifacts (observe (convert env op inputData) w)) ->
  In (EvRemove p) (observe (convert env op inputData) w) /\
  fs (snd (convert env op inputData w)) !! p = None.
Proof.
  intros Hin.
  destruct (convert_spec env op inputData w) as (evs & Hobs & Hgone & _).
  rewrite Hobs in Hin |- *. by apply Hgone.
Qed.

Lemma temp_artifacts_removed_witness :
  artifacts (observe (convert (Scenario.writer [x07]) GifToMp4 [x01]) Scenario.initial)
  = ["/tmp/input-0.gif"; "/tmp/output-1.mp4"] /\
  In (EvRemove "/tmp/output-1.mp4")
     (observe (convert (Scenario.writer [x07]) GifToMp4 [x01]) Scenario.initial) /\
  fs (snd (convert (Scenario.writer [x07]) GifToMp4 [x01] Scenario.initial))
    !! "/tmp/output-1.mp4" = None.
Proof.
  split; [vm_compute; reflexivity|].
  apply (temp_artifacts_removed (Scenario.writer [x07]) GifToMp4 [x01] Scenario.initial).
  vm_compute. right. left. reflexivity.
Defined.

(** ** The argument template of the audio conversion *)

(** C9: an output format tag other than mp3, wav, aac, amr and m4a selects
    the default profile (Opus in Ogg, 16 kbit/s, mono, 16 kHz), and the
    conversion runs the transcoder with it: dispatch does not fail. *)
Theorem unrecognized_output_tag_gets_default_profile outputFormat :
  ~ In outputFormat ["mp3"; "wav"; "aac"; "amr"; "m4a"] ->
  audioCommand outputFormat
  = exec.Command "ffmpeg"
      ["-i"; "pipe:0"; "-c:a"; "libopus"; "-b:a"; "16k"; "-vbr"; "on";
       "-compression_level"; "10"; "-ac"; "1"; "-ar"; "16000"; "-f"; "ogg"; "pipe:1"] /\
  forall env inputData inputFormat w,
    spawned (observe (convertAudio env inputData inputFormat outputFormat) w)
    = [piped inputData
         (exec.Command "ffmpeg"
            ["-i"; "pipe:0"; "-c:a"; "libopus"; "-b:a"; "16k"; "-vbr"; "on";
             "-compression_level"; "10"; "-ac"; "1"; "-ar"; "16000"; "-f"; "ogg"; "pipe:1"])].
Proof.
  intros Hnot.
  assert (audioCommand outputFormat
          = exec.Command "ffmpeg"
              ["-i"; "pipe:0"; "-c:a"; "libopus"; "-b:a"; "16k"; "-vbr"; "on";
               "-compression_level"; "10"; "-ac"; "1"; "-ar"; "16000"; "-f"; "ogg"; "pipe:1"])
    as Hcmd.
  { unfold audioCommand.
    repeat match goal with
           | |- context [String.eqb outputFormat ?tag] =>
               destruct (String.eqb_spec outputFormat tag) as [->|_];
               [exfalso; apply Hnot; cbn; tauto|]
           end.
    reflexivity. }
  split; [done|].
  intros. by rewrite convertAudio_events, Hcmd.
Qed.

Lemma unrecognized_output_tag_gets_default_profile_witness :
  audioCommand "flac"
  = exec.Command "ffmpeg"
      ["-i"; "pipe:0"; "-c:a"; "libopus"; "-b:a"; "16k"; "-vbr"; "on";
       "-compression_level"; "10"; "-ac"; "1"; "-ar"; "16000"; "-f"; "ogg"; "pipe:1"] /\
  forall env inputData inputFormat w,
    spawned (observe (convertAudio env inputData inputFormat "flac") w)
    = [piped inputData
         (exec.Command "ffmpeg"
            ["-i"; "pipe:0"; "-c:a"; "libopus"; "-b:a"; "16k"; "-vbr"; "on";
             "-compression_level"; "10"; "-ac"; "1"; "-ar"; "16000"; "-f"; "ogg"; "pipe:1"])].
Proof.
  apply (unrecognized_output_tag_gets_default_profile "flac").
  simpl. intros [H|[H|[H|[H|[H|[]]]]]]; discriminate H.
Defined.

(** C10: two audio conversions with the same output format tag run the
    transcoder with the same argument list, whatever the input format
    tags, the input bytes, the surroundings and the state of the world. *)
Theorem audio_arguments_depend_on_output_tag_only
    env1 env2 inputData1 inputData2 inputFormat1 inputFormat2 outputFormat w1 w2 :
  map exec.Args (spawned (observe (convertAudio env1 inputData1 inputFormat1 outputFormat) w1))
  = map exec.Args (spawned (observe (convertAudio env2 inputData2 inputFormat2 outputFormat) w2))
  /\ map exec.Args (spawned (observe (convertAudio env1 inputData1 inputFormat1 outputFormat) w1))
     = [exec.Args (audioCommand outputFormat)].
Proof. by rewrite !convertAudio_events. Qed.


(** ** Every return of the conversion through temporary files *)

Section ExitPathFacts.

Context (env : Env).

(** [os.CreateTemp] never hands out the name of an existing file. *)
Lemma createLoop_fresh tries prefix suffix w :
  match os.createLoop env tries prefix suffix w with
  | (Ok name, w') =>
      fs w !! name = None /\
      trace w' = trace w ++ [EvCreateTemp name] /\ fs w' = <[name := []]> (fs w)
  | (Err _, w') => trace w' = trace w /\ fs w' = fs w
  | (Panic _, _) => False
  end.
Proof.
  revert w; induction tries as [|tries IH]; intros w; cbn [os.createLoop]; [done|].
  destruct (fs (os.bump w) !! _) eqn:E.
  - specialize (IH (os.bump w)).
    destruct (os.createLoop env tries prefix suffix (os.bump w)) as [[name|e|e] w']; done.
  - destruct (fault env _ (os.bump w)); done.
Qed.

Lemma CreateTemp_fresh dir pattern w :
  match os.CreateTemp env dir pattern w with
  | (Ok name, w') =>
      fs w !! name = None /\
      trace w' = trace w ++ [EvCreateTemp name] /\ fs w' = <[name := []]> (fs w)
  | (Err _, w') => trace w' = trace w /\ fs w' = fs w
  | (Panic _, _) => False
  end.
Proof.
  unfold os.CreateTemp.
  destruct (os.prefixAndSuffix pattern) as [[prefix suffix]|e|e]; try done.
  apply createLoop_fresh.
Qed.

Lemma usingTempFiles_exit_trace inputPattern outputPattern template runFailed inputData w :
  match usingTempFiles env inputPattern outputPattern template runFailed inputData w with
  | (r, w') =>
      exists evs,
        trace w' = trace w ++ evs /\
        exitPath env template runFailed inputData (fs w) r evs (fs w')
  end.
Proof.
  unfold usingTempFiles, bind, orReturn, defer.
  pose proof (CreateTemp_fresh "" inputPattern w) as H1.
  destruct (os.CreateTemp env "" inputPattern w) as [[inputPath|e|e] w1]; [| | done].
  2:{ destruct H1 as [Ht1 Hf1]. exists []. cbn. rewrite Ht1, Hf1, app_nil_r.
      split; [done | constructor]. }
  destruct H1 as (Hin & Ht1 & Hf1).
  unfold os.Write.
  destruct (fault env (CallWrite inputPath) w1) as [e|] eqn:Ew.
  { eexists. cbn. rewrite Ht1, Hf1, <- app_assoc. split; [reflexivity|].
    rewrite delete_insert_id by done. apply ExitWrite; [done | by exists w1]. }
  match goal with |- context [os.CreateTemp env "" outputPattern ?x] => set (w1' := x) end.
  assert (trace w1' = trace w ++ [EvCreateTemp inputPath; EvWrite inputPath inputData]) as Ht1'.
  { subst w1'. cbn. by rewrite Ht1, <- app_assoc. }
  assert (fs w1' = <[inputPath := inputData]> (fs w)) as Hf1'.
  { subst w1'. cbn. by rewrite Hf1, alter_insert_eq. }
  clearbody w1'. clear Ht1 Hf1 Ew w1.
  pose proof (CreateTemp_fresh "" outputPattern w1') as H2.
  destruct (os.CreateTemp env "" outputPattern w1') as [[outputPath|e|e] w2]; [| | done].
  2:{ destruct H2 as [Ht2 Hf2]. eexists. cbn. rewrite Ht2, Hf2, Ht1', Hf1', <- app_assoc.
      split; [reflexivity|]. rewrite delete_insert_id by done. by apply ExitCreateOutput. }
  destruct H2 as (Hout & Ht2 & Hf2).
  rewrite Hf1' in Hout, Hf2. apply lookup_insert_None in Hout as [Hout Hne].
  rewrite Ht1', <- app_assoc in Ht2. cbn in Ht2. clear Ht1' Hf1' w1'.
  change (<[outputPath:=[]]> (<[inputPath:=inputData]> (fs w)))
    with (stagedFiles inputData (fs w) inputPath outputPath) in Hf2.
  assert (delete inputPath (delete outputPath
            (stagedFiles inputData (fs w) inputPath outputPath)) = fs w) as Hclean.
  { unfold stagedFiles. rewrite delete_insert_id by by rewrite lookup_insert_ne.
    by rewrite delete_insert_id. }
  unfold os.Stat at 1.
  destruct (fault env (CallStat inputPath) w2) as [e|] eqn:Es.
  { eexists. cbn. rewrite Ht2, Hf2, Hclean, <- !app_assoc. split; [reflexivity|].
    apply ExitStatInput; [done..| by exists w2]. }
  rewrite Hf2. unfold stagedFiles at 1.
  rewrite lookup_insert_ne, lookup_insert_eq by done.
  unfold os.Run. cbn. rewrite Hf2.
  change (process env _ _) with (stagedOutcome env template inputData (fs w) inputPath outputPath).
  destruct (exitErr _) as [err|] eqn:Ex.
  { eexists. cbn. rewrite Ht2, <- !app_assoc. split; [reflexivity|].
    by apply ExitRunFailed. }
  unfold os.Stat, os.ReadFile. cbn.
  match goal with |- context [fault env (CallStat outputPath) ?x] =>
    destruct (fault env (CallStat outputPath) x) as [e|] eqn:Es2 end.
  { eexists. cbn. rewrite Ht2, <- !app_assoc. split; [reflexivity|].
    apply ExitStatOutput; [done..|]. left. eexists. exact Es2. }
  destruct (fsAfter _ !! outputPath) as [outputData|] eqn:Eo.
  2:{ eexists. cbn. rewrite Ht2, <- !app_assoc. split; [reflexivity|].
      apply ExitStatOutput; [done..|]. by right. }
  cbn.
  match goal with |- context [fault env (CallReadFile outputPath) ?x] =>
    destruct (fault env (CallReadFile outputPath) x) as [e|] eqn:Er end.
  { eexists. cbn. rewrite Ht2, <- !app_assoc. split; [reflexivity|].
    apply ExitReadFile; [done..|]. eexists. exact Er. }
  cbn. rewrite Eo.
  destruct outputData as [|b outputData]; cbn.
  - eexists. cbn. rewrite Ht2, <- !app_assoc. split; [reflexivity|].
    by apply ExitEmptyOutput.
  - eexists. cbn. rewrite Ht2, <- !app_assoc. split; [reflexivity|].
    by apply ExitConverted.
Qed.

Lemma usingTempFiles_exit inputPattern outputPattern template runFailed inputData w :
  let r := usingTempFiles env inputPattern outputPattern template runFailed inputData w in
  exitPath env template runFailed inputData (fs w) (fst r)
    (observe (usingTempFiles env inputPattern outputPattern template runFailed inputData) w)
    (fs (snd r)).
Proof.
  pose proof (usingTempFiles_exit_trace inputPattern outputPattern template runFailed
                inputData w) as H.
  unfold observe, eventsSince. cbn zeta.
  destruct (usingTempFiles _ _ _ _ _ _ w) as [r w'].
  destruct H as (evs & Ht & Hexit). cbn.
  by rewrite Ht, drop_app_length.
Qed.

End ExitPathFacts.

(** ** The three conversions through temporary files, path by path *)

Section StagedOperations.

Context (env : Env).

(** An operation other than the audio conversion is either the GIF
    conversion turned away at its guard, or one of the exit paths. *)
Lemma convert_staged_exit op inputData w :
  isAudio op = false ->
  (op = GifToMp4 /\ inputData = [] /\
   convert env op inputData w = (Err "datos de entrada vacíos", w)) \/
  exists template runFailed,
    namesItsFiles template /\
    exitPath env template runFailed inputData (fs w)
      (fst (convert env op inputData w))
      (observe (convert env op inputData) w)
      (fs (snd (convert env op inputData w))).
Proof.
  intros Hop. destruct op as [? ?| |inputFormat|]; [done| | |].
  - destruct inputData as [|b inputData]; [left; done|]. right.
    eexists _, _. split; [|apply usingTempFiles_exit].
    by exists ["-movflags"; "faststart"; "-pix_fmt"; "yuv420p";
               "-vf"; "scale=trunc(iw/2)*2:trunc(ih/2)*2"; "-f"; "mp4";
               "-c:v"; "libx264"; "-preset"; "ultrafast"; "-crf"; "23"].
  - right. eexists _, _. split; [|apply usingTempFiles_exit].
    by exists ["-movflags"; "faststart"; "-pix_fmt"; "yuv420p";
               "-c:v"; "libx264"; "-preset"; "ultrafast"; "-crf"; "23";
               "-c:a"; "aac"; "-b:a"; "128k"].
  - right. eexists _, _. split; [|apply usingTempFiles_exit].
    by exists ["-f"; "image2"; "-c:v"; "png"].
Qed.

Lemma last_of_template template i o :
  namesItsFiles template ->
  List.last (exec.Args (stagedCommand template i o)) "" = o.
Proof.
  intros [middle H]. unfold stagedCommand, withStderr, exec.Command. cbn [exec.Args].
  rewrite H.
  replace ("ffmpeg" :: ["-i"; i] ++ middle ++ ["-y"; o])
    with (("ffmpeg" :: "-i" :: i :: middle ++ ["-y"]) ++ [o])
    by (cbn; by rewrite <- app_assoc).
  apply last_last.
Qed.

Lemma observe_unchanged {A} (m : M A) r w : m w = (r, w) -> observe m w = [].
Proof. intros H. apply observe_nothing. by rewrite H. Qed.

End StagedOperations.

(** ** What every conversion keeps *)

Section ConversionFacts.

Context (env : Env).

Lemma convert_audio_events inputFormat outputFormat inputData w :
  observe (convert env (Audio inputFormat outputFormat) inputData) w
  = [EvRun (piped inputData (audioCommand outputFormat))].
Proof.
  apply observe_extends. cbn [convert]. unfold bind, ret.
  pose proof (convertAudio_trace env inputData inputFormat outputFormat w) as Ht.
  by destruct (convertAudio _ _ _ _ w) as [[?|?|?] ?].
Qed.

(** Brings the three components of a run of a staged operation into the
    shape an exit path can be taken apart in. *)
Local Ltac staged_paths op inputData w Hop :=
  let tpl := fresh "template" in
  let rf := fresh "runFailed" in
  let Hnames := fresh "Hnames" in
  let Hexit := fresh "Hexit" in
  let Hguard := fresh "Hguard" in
  destruct (convert_staged_exit env op inputData w Hop)
    as [(-> & -> & Hguard) | (tpl & rf & Hnames & Hexit)];
  [ rewrite ?(observe_unchanged _ _ _ Hguard), ?Hguard
  | destruct Hexit ].

(** A conversion runs the transcoder at most once, whatever happens: there
    is no retry.  The audio conversion runs it exactly once. *)
Theorem one_process_per_conversion op inputData w :
  length (spawned (observe (convert env op inputData) w)) <= 1 /\
  (isAudio op = true ->
   length (spawned (observe (convert env op inputData) w)) = 1).
Proof.
  destruct (isAudio op) eqn:Hop.
  - destruct op; try done. rewrite convert_audio_events. cbn. auto.
  - split; [|done]. staged_paths op inputData w Hop; cbn; lia.
Qed.

(** A transcoder that fails never makes a conversion succeed, and when it
    was run its error and its diagnostic text are part of the error
    returned, the text verbatim at the end. *)
Theorem failed_transcoder_is_reported op inputData w e d :
  (forall cmd files,
     exitErr (process env cmd files) = Some e /\
     diagnosticText (process env cmd files) = d) ->
  (forall out, fst (convert env op inputData w) <> Ok out) /\
  (spawned (observe (convert env op inputData) w) <> [] ->
   exists pre mid, fst (convert env op inputData w) = Err (pre +:+ e +:+ mid +:+ d)).
Proof.
  intros Hfail.
  destruct (isAudio op) eqn:Hop.
  - destruct op as [inputFormat outputFormat| | |]; try done.
    destruct (Hfail (piped inputData (audioCommand outputFormat)) (fs w)) as [He Hd].
    assert (fst (convert env (Audio inputFormat outputFormat) inputData w)
            = Err ("error during conversion: " +:+ e +:+ ", details: " +:+ d)) as Hr.
    { cbn [convert]. unfold bind, convertAudio, os.Run. cbn. by rewrite He, Hd. }
    rewrite Hr. split; [done|]. intros _. by eexists _, _.
  - staged_paths op inputData w Hop; cbn;
      try match goal with
          | Hx : exitErr (stagedOutcome _ ?t _ _ ?i ?o) = _ |- _ =>
              destruct (Hfail (stagedCommand t i o) (stagedFiles inputData (fs w) i o))
                as [He Hd];
              unfold stagedOutcome in *; rewrite He in Hx; simplify_eq
          end;
      (split; [done|]); try done.
    intros _. by eexists _, _.
Qed.

(** If the operating system injects no failure and the transcoder exits
    with success leaving [content], not empty, at the path of its last
    argument, a conversion through temporary files for which both files
    could be created returns exactly [content]. *)
Theorem staged_conversion_returns_transcoder_output op inputData w content :
  isAudio op = false ->
  (forall call w', fault env call w' = None) ->
  (forall cmd files,
     exitErr (process env cmd files) = None /\
     fsAfter (process env cmd files) !! List.last (exec.Args cmd) "" = Some content) ->
  content <> [] ->
  length (artifacts (observe (convert env op inputData) w)) = 2 ->
  fst (convert env op inputData w) = Ok content.
Proof.
  intros Hop Hfault Hproc Hne.
  staged_paths op inputData w Hop; cbn; try done;
    try match goal with
        | Hx : faulted _ _ _ |- _ => destruct Hx as [w' Hx]; by rewrite Hfault in Hx
        end;
    destruct (Hproc (stagedCommand template inputPath outputPath)
                (stagedFiles inputData (fs w) inputPath outputPath)) as [Hexit Hcontent];
    rewrite (last_of_template _ _ _ Hnames) in Hcontent;
    unfold stagedOutcome in *; intros _.
  - congruence.
  - destruct H3 as [[w' Hx]|Hx]; [by rewrite Hfault in Hx | congruence].
  - congruence.
  - congruence.
Qed.

(** If the transcoder changes no file other than the one named by its last
    argument, a conversion through temporary files leaves the filesystem
    exactly as it found it, on every exit path. *)
Theorem staged_conversion_restores_filesystem op inputData w :
  isAudio op = false ->
  (forall cmd files p,
     p <> List.last (exec.Args cmd) "" ->
     fsAfter (process env cmd files) !! p = files !! p) ->
  fs (snd (convert env op inputData w)) = fs w.
Proof.
  intros Hop Htidy.
  staged_paths op inputData w Hop; try done;
    apply map_eq; intros p; unfold cleanedUp, stagedOutcome;
    rewrite !lookup_delete; repeat case_decide; simplify_eq; try done;
    (rewrite Htidy; [|by rewrite (last_of_template _ _ _ Hnames)]);
    unfold stagedFiles; by rewrite !lookup_insert_ne by done.
Qed.

(** A conversion through temporary files runs the transcoder only after it
    has written the payload to a new file and reserved a second new file,
    and the command names exactly these two files: the first behind "-i",
    the second last, behind "-y"; nothing is attached to its input. *)
Theorem transcoder_runs_on_staged_files op inputData w cmd :
  isAudio op = false ->
  In cmd (spawned (observe (convert env op inputData) w)) ->
  exists inputPath outputPath middle rest,
    observe (convert env op inputData) w
    = [EvCreateTemp inputPath; EvWrite inputPath inputData;
       EvCreateTemp outputPath; EvStat inputPath; EvRun cmd] ++ rest /\
    exec.Args cmd = ["ffmpeg"; "-i"; inputPath] ++ middle ++ ["-y"; outputPath] /\
    exec.Stdin cmd = None /\
    inputPath <> outputPath /\
    fs w !! inputPath = None /\ fs w !! outputPath = None.
Proof.
  intros Hop.
  staged_paths op inputData w Hop; cbn; try done;
    intros [<-|[]]; destruct Hnames as [middle Hm];
    exists inputPath, outputPath, middle; eexists;
    (split; [reflexivity|]); cbn; by rewrite Hm.
Qed.

End ConversionFacts.

(** ** Strategy: pipe or temporary files *)

Section StrategyFacts.

Lemma spawned_app evs evs' : spawned (evs ++ evs') = spawned evs ++ spawned evs'.
Proof.
  unfold spawned. induction evs as [|e evs IH]; [done|].
  cbn. destruct e; cbn; by rewrite ?IH.
Qed.

(** The one process of a run is found at one place only. *)
Lemma run_position pre cmd0 rest before cmd after :
  spawned pre = [] -> spawned rest = [] ->
  pre ++ EvRun cmd0 :: rest = before ++ EvRun cmd :: after ->
  before = pre /\ cmd = cmd0.
Proof.
  intros Hpre Hrest. revert before.
  induction pre as [|e pre IH]; intros [|e' before] Heq; cbn in Heq.
  - by injection Heq as ->.
  - injection Heq as <- Heq. rewrite Heq, spawned_app in Hrest.
    by destruct (spawned before).
  - by injection Heq as ->.
  - injection Heq as <- Heq.
    destruct (IH ltac:(by destruct e) before Heq) as [-> ->]. done.
Qed.

Lemma no_run_position evs before cmd after :
  spawned evs = [] -> evs <> before ++ EvRun cmd :: after.
Proof.
  intros Hevs ->. rewrite spawned_app in Hevs. by destruct (spawned before).
Qed.

Lemma staged_run_position template inputData inputPath outputPath rest before cmd after :
  spawned rest = [] ->
  staging template inputData inputPath outputPath ++ rest = before ++ EvRun cmd :: after ->
  before = [EvCreateTemp inputPath; EvWrite inputPath inputData;
            EvCreateTemp outputPath; EvStat inputPath] /\
  cmd = stagedCommand template inputPath outputPath.
Proof.
  intros Hrest Heq.
  by apply (run_position
              [EvCreateTemp inputPath; EvWrite inputPath inputData;
               EvCreateTemp outputPath; EvStat inputPath] _ rest _ _ after).
Qed.

(** The command of an audio tag goes through the pipes. *)
Lemma ioMode_audioCommand inputData outputFormat :
  ioMode inputData [] (piped inputData (audioCommand outputFormat)) = Some Pipe.
Proof.
  unfold ioMode, piped, audioCommand. cbn [exec.Stdin exec.Stdout exec.Args].
  rewrite bool_decide_eq_true_2; [done|].
  repeat case_match; done.
Qed.

(** A command made from a template that names its files, run after the
    staging calls, goes through the temporary files. *)
Lemma ioMode_stagedCommand template inputData inputPath outputPath :
  namesItsFiles template ->
  inputPath <> outputPath ->
  ioMode inputData
    [EvCreateTemp inputPath; EvWrite inputPath inputData;
     EvCreateTemp outputPath; EvStat inputPath]
    (stagedCommand template inputPath outputPath) = Some TempFile.
Proof.
  intros Hnames Hne. unfold ioMode.
  rewrite (last_of_template template inputPath outputPath Hnames).
  destruct Hnames as [middle Hm].
  unfold stagedCommand, withStderr, exec.Command.
  cbn [exec.Stdin exec.Stdout exec.Args]. rewrite Hm. cbn.
  rewrite bool_decide_eq_true_2; [done|].
  repeat split; [done|set_solver..].
Qed.

(** Among the audio tags, m4a alone asks for a container that needs
    seeking. *)
Lemma audio_requiresSeeking_iff_m4a inputFormat outputFormat :
  requiresSeeking (Audio inputFormat outputFormat) = true <-> outputFormat = "m4a".
Proof.
  unfold requiresSeeking, container, audioCommand.
  destruct (String.eqb outputFormat "mp3") eqn:E1;
    [apply String.eqb_eq in E1 as ->; done|].
  destruct (String.eqb outputFormat "wav") eqn:E2;
    [apply String.eqb_eq in E2 as ->; done|].
  destruct (String.eqb outputFormat "aac") eqn:E3;
    [apply String.eqb_eq in E3 as ->; done|].
  destruct (String.eqb outputFormat "amr") eqn:E4;
    [apply String.eqb_eq in E4 as ->; done|].
  destruct (String.eqb outputFormat "m4a") eqn:E5.
  - by apply String.eqb_eq in E5 as ->.
  - apply String.eqb_neq in E5. done.
Qed.

End StrategyFacts.

(** C1, as the code has it by design: leaving aside an audio conversion to
    a container that needs seeking (the m4a tag), the command an operation
    runs is in TempFile mode if and only if its output needs seeking or is
    the PNG of the image conversion, and in Pipe mode otherwise.  TempFile
    mode is the staging itself: the command reads and writes two different
    temporary files created before it, the payload written to the first,
    and nothing is on its standard input; Pipe mode is the payload on its
    standard input with "pipe:0" and "pipe:1" and no file created. *)
Theorem ioMode_TempFile_iff_seeking_or_png env op inputData w before cmd after :
  isAudio op && requiresSeeking op = false ->
  observe (convert env op inputData) w = before ++ EvRun cmd :: after ->
  exists mode,
    ioMode inputData before cmd = Some mode /\
    (mode = TempFile <-> requiresSeeking op = true \/ op = ImageToPng).
Proof.
  intros Hslip Hrun.
  destruct (isAudio op) eqn:Hop.
  - destruct op as [inputFormat outputFormat| | |]; try done.
    rewrite convert_audio_events in Hrun.
    destruct (run_position [] _ [] _ _ _ eq_refl eq_refl Hrun) as [-> ->].
    exists Pipe. split; [apply ioMode_audioCommand|].
    cbn in Hslip. rewrite Hslip. split; [done|]. by intros [?|?].
  - exists TempFile.
    assert (requiresSeeking op = true \/ op = ImageToPng) as Htarget
      by (destruct op; try done; auto).
    split; [|done]. clear Hslip Htarget.
    destruct (convert_staged_exit env op inputData w Hop)
      as [(-> & -> & Hguard) | (template & runFailed & Hnames & Hexit)].
    { rewrite (observe_unchanged _ _ _ Hguard) in Hrun. by destruct before. }
    destruct Hexit;
      try (by apply no_run_position in Hrun);
      (apply staged_run_position in Hrun as [-> ->]; [|done]);
      by apply ioMode_stagedCommand.
Qed.

Lemma ioMode_TempFile_iff_seeking_or_png_witness :
  isAudio ImageToPng && requiresSeeking ImageToPng = false /\
  observe (convert (Scenario.writer [x07]) ImageToPng [x01]) Scenario.initial
  = [EvCreateTemp "/tmp/input-0"; EvWrite "/tmp/input-0" [x01];
     EvCreateTemp "/tmp/output-1.png"; EvStat "/tmp/input-0"]
    ++ EvRun (withStderr (exec.Command "ffmpeg"
         ["-i"; "/tmp/input-0"; "-f"; "image2"; "-c:v"; "png"; "-y"; "/tmp/output-1.png"]))
    :: [EvStat "/tmp/output-1.png"; EvReadFile "/tmp/output-1.png";
        EvRemove "/tmp/output-1.png"; EvRemove "/tmp/input-0"] /\
  exists mode,
    ioMode [x01]
      [EvCreateTemp "/tmp/input-0"; EvWrite "/tmp/input-0" [x01];
       EvCreateTemp "/tmp/output-1.png"; EvStat "/tmp/input-0"]
      (withStderr (exec.Command "ffmpeg"
         ["-i"; "/tmp/input-0"; "-f"; "image2"; "-c:v"; "png"; "-y"; "/tmp/output-1.png"]))
    = Some mode /\
    (mode = TempFile <-> requiresSeeking ImageToPng = true \/ ImageToPng = ImageToPng).
Proof.
  split; [reflexivity|]. split; [vm_compute; reflexivity|].
  apply (ioMode_TempFile_iff_seeking_or_png (Scenario.writer [x07]) ImageToPng [x01]
           Scenario.initial _ _
           [EvStat "/tmp/output-1.png"; EvReadFile "/tmp/output-1.png";
            EvRemove "/tmp/output-1.png"; EvRemove "/tmp/input-0"]).
  - reflexivity.
  - vm_compute. reflexivity.
Defined.

(** C1, as the claim has it, fails at the image conversion: PNG is not an
    output that needs seeking, and the command that produces it is handed
    two temporary files, not the pipes. *)
Lemma png_conversion_uses_temp_files :
  requiresSeeking ImageToPng = false /\
  observe (convert (Scenario.writer [x07]) ImageToPng [x01]) Scenario.initial
  = [EvCreateTemp "/tmp/input-0"; EvWrite "/tmp/input-0" [x01];
     EvCreateTemp "/tmp/output-1.png"; EvStat "/tmp/input-0"]
    ++ EvRun (withStderr (exec.Command "ffmpeg"
         ["-i"; "/tmp/input-0"; "-f"; "image2"; "-c:v"; "png"; "-y"; "/tmp/output-1.png"]))
    :: [EvStat "/tmp/output-1.png"; EvReadFile "/tmp/output-1.png";
        EvRemove "/tmp/output-1.png"; EvRemove "/tmp/input-0"] /\
  ioMode [x01]
    [EvCreateTemp "/tmp/input-0"; EvWrite "/tmp/input-0" [x01];
     EvCreateTemp "/tmp/output-1.png"; EvStat "/tmp/input-0"]
    (withStderr (exec.Command "ffmpeg"
       ["-i"; "/tmp/input-0"; "-f"; "image2"; "-c:v"; "png"; "-y"; "/tmp/output-1.png"]))
  = Some TempFile /\
  ~ (forall env op inputData w before cmd after,
       observe (convert env op inputData) w = before ++ EvRun cmd :: after ->
       (ioMode inputData before cmd = Some TempFile <-> requiresSeeking op = true)).
Proof.
  assert (observe (convert (Scenario.writer [x07]) ImageToPng [x01]) Scenario.initial
    = [EvCreateTemp "/tmp/input-0"; EvWrite "/tmp/input-0" [x01];
       EvCreateTemp "/tmp/output-1.png"; EvStat "/tmp/input-0"]
      ++ EvRun (withStderr (exec.Command "ffmpeg"
           ["-i"; "/tmp/input-0"; "-f"; "image2"; "-c:v"; "png"; "-y"; "/tmp/output-1.png"]))
      :: [EvStat "/tmp/output-1.png"; EvReadFile "/tmp/output-1.png";
          EvRemove "/tmp/output-1.png"; EvRemove "/tmp/input-0"]) as Hrun
    by (vm_compute; reflexivity).
  split; [reflexivity|]. split; [exact Hrun|]. split; [by vm_compute|].
  intros H. destruct (H _ _ _ _ _ _ _ Hrun) as [H' _].
  by specialize (H' eq_refl).
Qed.

(** The audio tags by their containers: the m4a tag alone asks for a
    container of the MP4 family, and its command goes through the pipes
    like that of every other tag. *)
Example audio_containers :
  map (fun tag => (container (Audio "" tag), requiresSeeking (Audio "" tag)))
      ["mp3"; "wav"; "aac"; "amr"; "m4a"; "ogg"; "flac"]
  = [("mp3", false); ("wav", false); ("adts", false); ("amr", false);
     ("ipod", true); ("ogg", false); ("ogg", false)].
Proof. reflexivity. Qed.

Lemma failed_transcoder_is_reported_witness :
  (forall out,
     fst (convert Scenario.failing (VideoToMp4 "avi") [x01] Scenario.initial) <> Ok out) /\
  (spawned (observe (convert Scenario.failing (VideoToMp4 "avi") [x01]) Scenario.initial) <> [] ->
   exists pre mid,
     fst (convert Scenario.failing (VideoToMp4 "avi") [x01] Scenario.initial)
     = Err (pre +:+ "exit status 1" +:+ mid +:+ "Invalid data found when processing input")).
Proof.
  apply (failed_transcoder_is_reported Scenario.failing (VideoToMp4 "avi") [x01]
           Scenario.initial).
  intros cmd files. split; reflexivity.
Defined.

Lemma staged_conversion_returns_transcoder_output_witness :
  fst (convert (Scenario.writer [x07; x08]) GifToMp4 [x01] Scenario.initial)
  = Ok [x07; x08].
Proof.
  apply (staged_conversion_returns_transcoder_output (Scenario.writer [x07; x08])).
  - reflexivity.
  - intros call w'. reflexivity.
  - intros cmd files. split; [reflexivity | apply lookup_insert_eq].
  - discriminate.
  - vm_compute. reflexivity.
Defined.

Lemma staged_conversion_restores_filesystem_witness :
  fs (snd (convert (Scenario.writer [x07]) ImageToPng [x01]
             {| fs := {[ "/srv/keep" := [x09] ]}; rand := 4; trace := [] |}))
  = fs {| fs := {[ "/srv/keep" := [x09] ]}; rand := 4; trace := [] |}.
Proof.
  apply (staged_conversion_restores_filesystem (Scenario.writer [x07]) ImageToPng [x01]
           {| fs := {[ "/srv/keep" := [x09] ]}; rand := 4; trace := [] |}).
  - reflexivity.
  - intros cmd files p Hp. simpl. apply lookup_insert_ne. congruence.
Defined.

Lemma transcoder_runs_on_staged_files_witness :
  exists inputPath outputPath middle rest,
    observe (convert (Scenario.writer [x07]) (VideoToMp4 "avi") [x01]) Scenario.initial
    = [EvCreateTemp inputPath; EvWrite inputPath [x01];
       EvCreateTemp outputPath; EvStat inputPath;
       EvRun (withStderr (exec.Command "ffmpeg"
                ["-i"; "/tmp/input-0.avi"; "-movflags"; "faststart"; "-pix_fmt"; "yuv420p";
                 "-c:v"; "libx264"; "-preset"; "ultrafast"; "-crf"; "23";
                 "-c:a"; "aac"; "-b:a"; "128k"; "-y"; "/tmp/output-1.mp4"]))] ++ rest /\
    exec.Args (withStderr (exec.Command "ffmpeg"
                ["-i"; "/tmp/input-0.avi"; "-movflags"; "faststart"; "-pix_fmt"; "yuv420p";
                 "-c:v"; "libx264"; "-preset"; "ultrafast"; "-crf"; "23";
                 "-c:a"; "aac"; "-b:a"; "128k"; "-y"; "/tmp/output-1.mp4"]))
    = ["ffmpeg"; "-i"; inputPath] ++ middle ++ ["-y"; outputPath] /\
    exec.Stdin (withStderr (exec.Command "ffmpeg"
                ["-i"; "/tmp/input-0.avi"; "-movflags"; "faststart"; "-pix_fmt"; "yuv420p";
                 "-c:v"; "libx264"; "-preset"; "ultrafast"; "-crf"; "23";
                 "-c:a"; "aac"; "-b:a"; "128k"; "-y"; "/tmp/output-1.mp4"])) = None /\
    inputPath <> outputPath /\
    fs Scenario.initial !! inputPath = None /\ fs Scenario.initial !! outputPath = None.
Proof.
  apply (transcoder_runs_on_staged_files (Scenario.writer [x07]) (VideoToMp4 "avi") [x01]
           Scenario.initial).
  - reflexivity.
  - vm_compute. left. reflexivity.
Defined.

(** ** The markers and the outcome of the duration step *)

Section MarkerFacts.

Import GoStrings.

Lemma HasPrefix_split t sep :
  HasPrefix t sep = true -> t = sep +:+ from (String.length sep) t.
Proof.
  unfold HasPrefix. revert t; induction sep as [|d sep IH]; intros t; [done|].
  destruct t as [|c t]; cbn; [done|].
  destruct (ascii_dec d c) as [->|]; [|done]. intros H.
  change (String c t = String c (sep +:+ from (String.length sep) t)).
  f_equal. by apply IH.
Qed.

Lemma occurrences_behind_marker r :
  occurrences ("time=" +:+ r) "time=" = S (occurrences r "time=").
Proof.
  change ("time=" +:+ r)
    with (String "t" (String "i" (String "m" (String "e" (String "=" r))))).
  cbn [occurrences]. unfold HasPrefix. cbn. by destruct r.
Qed.

(** [strings.Count] counts every position at which "time=" occurs: the
    marker cannot overlap itself. *)
Lemma Count_time_occurrences s : Count s "time=" = occurrences s "time=".
Proof.
  unfold Count.
  assert (forall n s, String.length s <= n ->
            countLoop n s "time=" = occurrences s "time=") as H;
    [|by apply H].
  clear s. induction n as [|n IH]; intros s Hn.
  - by destruct s; [|cbn in Hn; lia].
  - cbn [countLoop]. destruct (Index s "time=") as [i|] eqn:Ei.
    + pose proof (Index_bound s "time=" i ltac:(done) Ei) as Hb. cbn in Hb.
      destruct (Index_Some _ _ _ Ei) as [Hp <-].
      rewrite (HasPrefix_split _ _ Hp), occurrences_behind_marker, from_from.
      f_equal. apply IH. rewrite length_from. cbn. lia.
    + symmetry. by apply Index_None.
Qed.

Lemma Split_time_length s :
  length (Split s "time=") = S (occurrences s "time=").
Proof. by rewrite Split_length, Count_time_occurrences. Qed.

End MarkerFacts.

Lemma parseDuration_by_markers text :
  (parseDuration text = Err "duração não encontrada"
   <-> GoStrings.occurrences text "time=" = 0) /\
  ((exists msg, parseDuration text = Panic msg)
   <-> GoStrings.occurrences text "time=" = 1) /\
  (2 <= GoStrings.occurrences text "time=" ->
   (exists duration, parseDuration text = Ok duration) \/
   parseDuration text = Err "formato de duração não encontrado").
Proof.
  pose proof (Split_time_length text) as Hlen.
  unfold parseDuration.
  destruct (GoStrings.occurrences text "time=") as [|[|n]].
  - rewrite Hlen. cbn. split; [done|]. split; [|lia].
    split; [by intros [? ?] | done].
  - rewrite Hlen. cbn [Nat.ltb Nat.leb].
    rewrite (lookup_ge_None_2 _ 2) by lia.
    split; [done|]. split; [|lia]. split; [done | by eexists].
  - rewrite Hlen. cbn [Nat.ltb Nat.leb].
    destruct (lookup_lt_is_Some_2 (GoStrings.Split text "time=") 2 ltac:(lia))
      as [piece ->].
    assert ((exists duration,
               match regexp.FindStringSubmatch piece with
               | [_; m1; m2; m3] =>
                   Ok (strconv.int (strconv.ParseFloat m1 * 3600
                                    + strconv.ParseFloat m2 * 60
                                    + strconv.ParseFloat m3)%Q)
               | _ => Err "formato de duração não encontrado"
               end = Ok duration) \/
            match regexp.FindStringSubmatch piece with
            | [_; m1; m2; m3] =>
                Ok (strconv.int (strconv.ParseFloat m1 * 3600
                                 + strconv.ParseFloat m2 * 60
                                 + strconv.ParseFloat m3)%Q)
            | _ => Err "formato de duração não encontrado"
            end = Err "formato de duração não encontrado") as Hcases.
    { destruct (regexp.FindStringSubmatch piece) as [|? [|? [|? [|? [|? ?]]]]]; eauto. }
    split; [|split; [|done]].
    + split; [|lia]. intros H. destruct Hcases as [[d Hd]|Hd]; congruence.
    + split; [|lia]. intros [msg H]. destruct Hcases as [[d Hd]|Hd]; congruence.
Qed.

(** The outcome of the duration step is decided by the number of "time="
    markers in the diagnostic text: none gives the error "duração não
    encontrada" and nothing else does; exactly one makes the step panic and
    nothing else does; with two or more the step returns a duration or the
    error "formato de duração não encontrado". *)
Theorem duration_step_by_marker_count text :
  (parseDuration text = Err "duração não encontrada"
   <-> GoStrings.occurrences text "time=" = 0) /\
  ((exists msg, parseDuration text = Panic msg)
   <-> GoStrings.occurrences text "time=" = 1) /\
  (2 <= GoStrings.occurrences text "time=" ->
   (exists duration, parseDuration text = Ok duration) \/
   parseDuration text = Err "formato de duração não encontrado").
Proof. apply parseDuration_by_markers. Qed.


(** ** The handlers *)

Lemma validateAPIKey_accepts apiKey req :
  validateAPIKey apiKey req = None <-> apiKey <> "" /\ apikeyHeader req = apiKey.
Proof.
  unfold validateAPIKey.
  destruct (String.eqb_spec apiKey "") as [->|Hk]; [by split; [|intros [? ?]]|].
  destruct (String.eqb_spec (apikeyHeader req) "") as [He|He].
  - split; [done|]. intros [_ H]. congruence.
  - destruct (String.eqb_spec (apikeyHeader req) apiKey) as [Heq|Hneq]; cbn.
    + done.
    + split; [done|]. by intros [_ H].
Qed.

(** A request passes the key check only when the server has a key and the
    "apikey" header equals it.  Otherwise each of the four handlers answers
    with the 401 or 500 of the check and touches nothing: no file is
    created and no process is run. *)
Theorem unaccepted_key_stops_every_handler env apiKey req w :
  (validateAPIKey apiKey req = None <-> apiKey <> "" /\ apikeyHeader req = apiKey) /\
  (forall resp,
     validateAPIKey apiKey req = Some resp ->
     (status resp = 401 \/ status resp = 500) /\
     processAudio env apiKey req w = (Ok resp, w) /\
     processGifToMp4 env apiKey req w = (Ok resp, w) /\
     processVideoToMp4 env apiKey req w = (Ok resp, w) /\
     processImageToPng env apiKey req w = (Ok resp, w)).
Proof.
  split; [apply validateAPIKey_accepts|].
  intros resp Hresp.
  unfold processAudio, processGifToMp4, processVideoToMp4, processImageToPng.
  rewrite Hresp. split; [|done].
  unfold validateAPIKey in Hresp.
  repeat match type of Hresp with
         | (if ?b then _ else _) = _ => destruct b
         end; simplify_eq; cbn; auto.
Qed.

Lemma unaccepted_key_stops_every_handler_witness :
  (status (errorResponse 401 "API_KEY inválida") = 401 \/
   status (errorResponse 401 "API_KEY inválida") = 500) /\
  processAudio Scenario.failing "secret" (Scenario.request [x01]) Scenario.initial
  = (Ok (errorResponse 401 "API_KEY inválida"), Scenario.initial) /\
  processGifToMp4 Scenario.failing "secret" (Scenario.request [x01]) Scenario.initial
  = (Ok (errorResponse 401 "API_KEY inválida"), Scenario.initial) /\
  processVideoToMp4 Scenario.failing "secret" (Scenario.request [x01]) Scenario.initial
  = (Ok (errorResponse 401 "API_KEY inválida"), Scenario.initial) /\
  processImageToPng Scenario.failing "secret" (Scenario.request [x01]) Scenario.initial
  = (Ok (errorResponse 401 "API_KEY inválida"), Scenario.initial).
Proof.
  apply (unaccepted_key_stops_every_handler Scenario.failing "secret"
           (Scenario.request [x01]) Scenario.initial).
  reflexivity.
Defined.

(** The closure [processConversion] always writes a response, also when
    the conversion panics; the response is a 200 or a 500, and a 200
    carries the bytes the conversion returned, which are not empty, under
    the given key, next to the format. *)
Theorem conversion_handler_always_answers
    (conversion : M (list byte)) key format w :
  exists resp,
    processConversion conversion key format w = (Ok resp, snd (conversion w)) /\
    (status resp = 200 \/ status resp = 500) /\
    (status resp = 200 ->
     exists convertedData,
       fst (conversion w) = Ok convertedData /\ convertedData <> [] /\
       body resp = [(key, JBase64 convertedData); ("format", JString format)]).
Proof.
  unfold processConversion.
  destruct (conversion w) as [[convertedData|e|e] w']; cbn.
  - destruct convertedData as [|b convertedData]; cbn.
    + eexists. split; [reflexivity|]. cbn. split; [auto | done].
    + eexists. split; [reflexivity|]. cbn. split; [auto|]. intros _. by eexists.
  - eexists. split; [reflexivity|]. cbn. split; [auto | done].
  - eexists. split; [reflexivity|]. cbn. split; [auto | done].
Qed.

(** [processAudio] never hands an error upwards, and it panics instead of
    answering exactly when the key is accepted, the input was acquired, the
    transcoder exited with success and its diagnostic text has exactly one
    "time=" marker. *)
Theorem audio_handler_panics_iff_single_marker env apiKey req w :
  (forall e, fst (processAudio env apiKey req w) <> Err e) /\
  ((exists msg, fst (processAudio env apiKey req w) = Panic msg) <->
   exists inputData,
     validateAPIKey apiKey req = None /\
     payload req = inr inputData /\
     exitErr (process env (piped inputData (audioCommand (default "ogg" (output_format req))))
                (fs w)) = None /\
     GoStrings.occurrences
       (diagnosticText
          (process env (piped inputData (audioCommand (default "ogg" (output_format req))))
             (fs w))) "time=" = 1).
Proof.
  unfold processAudio.
  destruct (validateAPIKey apiKey req) as [r|] eqn:Hkey.
  { cbn. split; [done|]. split; [by intros [? ?] | by intros (? & ? & _)]. }
  destruct (payload req) as [e|inputData] eqn:Hpay.
  { cbn. split; [done|]. split; [by intros [? ?] | by intros (? & _ & ? & _)]. }
  unfold convertAudio, os.Run. cbn.
  set (o := process env _ _).
  destruct (exitErr o) as [err|] eqn:Hexit.
  { cbn. split; [done|]. split; [by intros [? ?]|].
    intros (d & _ & [= <-] & Hx & _). subst o. congruence. }
  destruct (parseDuration_by_markers (diagnosticText o)) as (_ & Hpanic & _).
  destruct (parseDuration (diagnosticText o)) as [d|e|msg] eqn:Hd; cbn.
  - split; [done|]. split; [by intros [? ?]|].
    intros (d' & _ & [= <-] & _ & Hone). apply Hpanic in Hone as [? ?]. done.
  - split; [done|]. split; [by intros [? ?]|].
    intros (d' & _ & [= <-] & _ & Hone). apply Hpanic in Hone as [? ?]. done.
  - split; [done|]. split; [|by eexists].
    intros _. exists inputData. repeat split; try done. apply Hpanic. by eexists.
Qed.

(** When [processAudio] answers 200, the transcoder exited with success,
    the "audio" of the answer is what it wrote to its output, "duration" is
    the duration the step parsed, and "format" is the output tag of the
    request ("ogg" when absent), whatever profile that tag selected. *)
Theorem audio_handler_success_response env apiKey req w resp :
  fst (processAudio env apiKey req w) = Ok resp ->
  status resp = 200 ->
  exists inputData duration,
    payload req = inr inputData /\
    let outputFormat := default "ogg" (output_format req) in
    let o := process env (piped inputData (audioCommand outputFormat)) (fs w) in
    exitErr o = None /\
    parseDuration (diagnosticText o) = Ok duration /\
    body resp = [("duration", JNumber duration);
                 ("audio", JBase64 (stdoutBytes o));
                 ("format", JString outputFormat)].
Proof.
  unfold processAudio.
  destruct (validateAPIKey apiKey req) as [r|] eqn:Hkey.
  { cbn. intros [= <-] Hs. unfold validateAPIKey in Hkey.
    repeat match type of Hkey with
           | (if ?b then _ else _) = _ => destruct b
           end; simplify_eq; done. }
  destruct (payload req) as [e|inputData] eqn:Hpay; [by cbn; intros [= <-]|].
  unfold convertAudio, os.Run. cbn.
  set (o := process env _ _).
  destruct (exitErr o) as [err|] eqn:Hexit; [by cbn; intros [= <-]|].
  destruct (parseDuration (diagnosticText o)) as [d|e|msg] eqn:Hd; cbn;
    [|by intros [= <-]|done].
  intros [= <-] _. exists inputData, d. by repeat split.
Qed.

Lemma audio_handler_success_response_witness :
  exists inputData duration,
    payload {| apikeyHeader := "k"; payload := inr [x01; x02];
               output_format := Some "flac"; input_format := None |} = inr inputData /\
    let outputFormat := "flac" in
    let o := process (Scenario.echo Scenario.progress)
               (piped inputData (audioCommand outputFormat)) (fs Scenario.initial) in
    exitErr o = None /\
    parseDuration (diagnosticText o) = Ok duration /\
    [("duration", JNumber 3723); ("audio", JBase64 [x01; x02]); ("format", JString "flac")]
    = [("duration", JNumber duration);
       ("audio", JBase64 (stdoutBytes o));
       ("format", JString outputFormat)].
Proof.
  apply (audio_handler_success_response (Scenario.echo Scenario.progress) "k"
           {| apikeyHeader := "k"; payload := inr [x01; x02];
              output_format := Some "flac"; input_format := None |}
           Scenario.initial
           {| status := 200;
              body := [("duration", JNumber 3723); ("audio", JBase64 [x01; x02]);
                       ("format", JString "flac")] |}).
  - vm_compute. reflexivity.
  - reflexivity.
Defined.


(** ** Base64: decoding what was encoded *)

Section Base64Facts.

Import base64.

Local Open Scope N_scope.

Lemma regroup_lor x y : regroup (N.lor x y) = N.lor (regroup x) (regroup y).
Proof.
  unfold regroup, sextet.
  rewrite !N.shiftr_lor, !N.land_lor_distr_l, !N.shiftl_lor.
  apply N.bits_inj. intros n. rewrite !N.lor_spec. btauto.
Qed.

Lemma regroup_high (b : Byte.byte) : regroup (N.shiftl (uint b) 16) = N.shiftl (uint b) 16.
Proof. destruct b; reflexivity. Qed.

Lemma regroup_middle (b : Byte.byte) : regroup (N.shiftl (uint b) 8) = N.shiftl (uint b) 8.
Proof. destruct b; reflexivity. Qed.

Lemma regroup_low (b : Byte.byte) : regroup (uint b) = uint b.
Proof. destruct b; reflexivity. Qed.

Lemma byte_uint (b : Byte.byte) : byte (uint b) = b.
Proof. destruct b; reflexivity. Qed.

Lemma byte_lor_zero x y z :
  N.land y 255 = 0 -> N.land z 255 = 0 -> byte (N.lor (N.lor x y) z) = byte x.
Proof.
  intros Hy Hz. unfold byte.
  by rewrite !N.land_lor_distr_l, Hy, Hz, !N.lor_0_r.
Qed.

Lemma bits_high (b : Byte.byte) :
  N.land (N.shiftr (N.shiftl (uint b) 16) 16) 255 = uint b /\
  N.land (N.shiftr (N.shiftl (uint b) 16) 8) 255 = 0 /\
  N.land (N.shiftl (uint b) 16) 255 = 0 /\
  N.land (N.shiftl (uint b) 16) 63 = 0 /\
  sextet 6 (N.shiftl (uint b) 16) = 0.
Proof. destruct b; repeat split; reflexivity. Qed.

Lemma bits_middle (b : Byte.byte) :
  N.land (N.shiftr (N.shiftl (uint b) 8) 16) 255 = 0 /\
  N.land (N.shiftr (N.shiftl (uint b) 8) 8) 255 = uint b /\
  N.land (N.shiftl (uint b) 8) 255 = 0 /\
  N.land (N.shiftl (uint b) 8) 63 = 0.
Proof. destruct b; repeat split; reflexivity. Qed.

Lemma bits_low (b : Byte.byte) :
  N.land (N.shiftr (uint b) 16) 255 = 0 /\
  N.land (N.shiftr (uint b) 8) 255 = 0 /\
  N.land (uint b) 255 = uint b.
Proof. destruct b; repeat split; reflexivity. Qed.

Lemma byte_of_uint_bits (b : Byte.byte) : default x00 (Byte.of_N (uint b)) = b.
Proof. unfold uint. by rewrite Byte.of_to_N. Qed.

(** The bytes of a full quantum are the three bytes it was made of. *)
Lemma quantumBytes_three (b0 b1 b2 : Byte.byte) :
  let val := N.lor (N.lor (N.shiftl (uint b0) 16) (N.shiftl (uint b1) 8)) (uint b2) in
  quantumBytes [sextet 18 val; sextet 12 val; sextet 6 val; N.land val 63] = [b0; b1; b2].
Proof.
  intros val. unfold quantumBytes.
  cbn [lookup list_lookup default from_option id length Nat.sub take].
  fold (regroup val).
  assert (regroup val = val) as ->.
  { subst val. by rewrite !regroup_lor, regroup_high, regroup_middle, regroup_low. }
  destruct (bits_high b0) as (H0 & H0' & H0'' & _), (bits_middle b1) as (H1 & H1' & H1'' & _),
    (bits_low b2) as (H2 & H2' & H2'').
  subst val. unfold byte.
  rewrite !N.shiftr_lor, !N.land_lor_distr_l.
  rewrite H0, H0', H0'', H1, H1', H1'', H2, H2', H2''.
  rewrite !N.lor_0_r, !N.lor_0_l.
  by rewrite !byte_of_uint_bits.
Qed.

Lemma quantumBytes_two (b0 b1 : Byte.byte) :
  let val := N.lor (N.shiftl (uint b0) 16) (N.shiftl (uint b1) 8) in
  quantumBytes [sextet 18 val; sextet 12 val; sextet 6 val] = [b0; b1].
Proof.
  intros val. unfold quantumBytes.
  cbn [lookup list_lookup default from_option id length Nat.sub take].
  destruct (bits_high b0) as (H0 & H0' & _ & H0low & _),
    (bits_middle b1) as (H1 & H1' & _ & H1low).
  assert (N.land val 63 = 0) as Hlow.
  { subst val. by rewrite N.land_lor_distr_l, H0low, H1low. }
  rewrite <- Hlow at 1 2. fold (regroup val).
  assert (regroup val = val) as ->.
  { subst val. by rewrite !regroup_lor, regroup_high, regroup_middle. }
  subst val. unfold byte.
  rewrite !N.shiftr_lor, !N.land_lor_distr_l.
  rewrite H0, H0', H1, H1'.
  rewrite !N.lor_0_r, !N.lor_0_l.
  by rewrite !byte_of_uint_bits.
Qed.

Lemma quantumBytes_one (b0 : Byte.byte) :
  let val := N.shiftl (uint b0) 16 in
  quantumBytes [sextet 18 val; sextet 12 val] = [b0].
Proof.
  intros val. unfold quantumBytes.
  cbn [lookup list_lookup default from_option id length Nat.sub take].
  destruct (bits_high b0) as (H0 & _ & _ & H0low & H0six).
  fold val in H0low, H0six.
  rewrite <- H0low at 2. rewrite <- H0six at 1. fold (regroup val).
  subst val. rewrite regroup_high. unfold byte.
  by rewrite H0, byte_of_uint_bits.
Qed.

Lemma land_63_bound x : N.land x 63 < 64.
Proof.
  change 63 with (N.ones 6). rewrite N.land_ones. by apply N.mod_lt.
Qed.

(** Every character of the alphabet decodes to its position. *)
Lemma decodeMap_encode x : decodeMap (encode (N.land x 63)) = Some (N.land x 63).
Proof.
  pose proof (land_63_bound x) as H. revert H. generalize (N.land x 63) as i.
  intros i Hi. rewrite <- (N2Nat.id i).
  assert (N.to_nat i < 64)%nat as Hn by lia. revert Hn. generalize (N.to_nat i) as n.
  intros n Hn.
  do 64 (destruct n as [|n]; [reflexivity|]). lia.
Qed.

Lemma sextet_spec k val : sextet k val = N.land (N.shiftr val k) 63.
Proof. reflexivity. Qed.

(** One character of the alphabet, read by the decoder. *)
Lemma decodeFrom_sextet x rest si dbuf :
  decodeFrom (String (encode (N.land x 63)) rest) si dbuf
  = if Nat.eqb (length (dbuf ++ [N.land x 63])) 4
    then prepend (quantumBytes (dbuf ++ [N.land x 63])) (decodeFrom rest (S si) [])
    else decodeFrom rest (S si) (dbuf ++ [N.land x 63]).
Proof. cbn [decodeFrom]. by rewrite decodeMap_encode. Qed.

(** [DecodeString] undoes [EncodeToString], at any position of the input. *)
Lemma decodeFrom_EncodeToString src si :
  decodeFrom (EncodeToString src) si [] = Ok src.
Proof.
  assert (forall n src si, (length src <= n)%nat ->
            decodeFrom (EncodeToString src) si [] = Ok src) as H;
    [|by apply (H (length src))].
  clear src si. induction n as [|n IH]; intros src si Hn.
  { by destruct src; [|cbn in Hn; lia]. }
  destruct src as [|b0 [|b1 [|b2 rest]]].
  - done.
  - cbn [EncodeToString].
    do 2 (rewrite decodeFrom_sextet; cbn [app length Nat.eqb]).
    change (Ok (quantumBytes [sextet 18 (N.shiftl (uint b0) 16);
                              sextet 12 (N.shiftl (uint b0) 16)]) = Ok [b0]).
    by rewrite quantumBytes_one.
  - cbn [EncodeToString].
    do 3 (rewrite decodeFrom_sextet; cbn [app length Nat.eqb]).
    change (Ok (quantumBytes
                  [sextet 18 (N.lor (N.shiftl (uint b0) 16) (N.shiftl (uint b1) 8));
                   sextet 12 (N.lor (N.shiftl (uint b0) 16) (N.shiftl (uint b1) 8));
                   sextet 6 (N.lor (N.shiftl (uint b0) 16) (N.shiftl (uint b1) 8))])
            = Ok [b0; b1]).
    by rewrite quantumBytes_two.
  - cbn [EncodeToString].
    do 4 (rewrite decodeFrom_sextet; cbn [app length Nat.eqb]).
    rewrite IH by (cbn in Hn; lia). rewrite <- !sextet_spec.
    by rewrite quantumBytes_three.
Qed.

End Base64Facts.

(** [base64.StdEncoding.DecodeString] gives back every byte sequence that
    [base64.StdEncoding.EncodeToString] encoded: what a response carries
    as "audio", "video" or "image" decodes to the converted bytes. *)
Theorem base64_decode_encode (src : list byte) :
  base64.DecodeString (base64.EncodeToString src) = Ok src.
Proof. apply decodeFrom_EncodeToString. Qed.

(** ** The origin *)

Section OriginFacts.

Lemma Split_single s sep :
  length (GoStrings.Split s sep) = 1 -> GoStrings.Split s sep = [s].
Proof.
  rewrite Split_length. intros [= H]. unfold GoStrings.Split. by rewrite H.
Qed.

Lemma validateOrigin_init allowOriginsEnv origin :
  validateOrigin (initAllowedOrigins allowOriginsEnv) origin = true <->
  allowOriginsEnv = "" \/ allowOriginsEnv = "*" \/
  In origin (GoStrings.Split allowOriginsEnv ",").
Proof.
  unfold initAllowedOrigins.
  destruct (String.eqb_spec allowOriginsEnv "") as [->|Hne]; cbn [negb].
  { split; [by left | done]. }
  unfold validateOrigin.
  pose proof (Split_length allowOriginsEnv ",") as Hlen.
  destruct (GoStrings.Split allowOriginsEnv ",") as [|allowed l] eqn:Hs; [done|].
  cbn [length Nat.eqb orb].
  destruct l as [|allowed' l].
  - cbn [length Nat.eqb andb].
    assert (allowed = allowOriginsEnv) as ->.
    { pose proof (Split_single allowOriginsEnv "," ltac:(by rewrite Hs)) as H.
      rewrite Hs in H. by injection H. }
    destruct (String.eqb_spec allowOriginsEnv "*") as [->|Hstar].
    + split; [by right; left | done].
    + cbn. rewrite orb_false_r.
      destruct (String.eqb_spec allowOriginsEnv origin) as [->|Ho].
      * split; [by right; right; left | done].
      * split; [done|]. intros [?|[?|[?|[]]]]; done.
  - cbn [length Nat.eqb andb]. rewrite existsb_exists.
    split.
    + intros (a & Ha & Heq). apply String.eqb_eq in Heq as ->. by right; right.
    + intros [?|[->|Hin]]; [done| |].
      * exfalso. vm_compute in Hs. done.
      * exists origin. split; [done | apply String.eqb_refl].
Qed.

End OriginFacts.

(** With [allowedOrigins] as [init] sets it from CORS_ALLOW_ORIGINS, the
    middleware lets a request through to the handler exactly when the
    variable is empty or "*", or the origin of the request (its Origin
    header, or the Referer when there is none) is, character by character,
    one of the comma-separated entries.  Otherwise it answers 403 and the
    handler does not run, whatever the key. *)
Theorem origin_gate allowOriginsEnv next (c : gin.Context) w :
  let origin := if String.eqb (gin.GetHeader c "Origin") ""
                then gin.GetHeader c "Referer" else gin.GetHeader c "Origin" in
  let allowed := allowOriginsEnv = "" \/ allowOriginsEnv = "*" \/
                 In origin (GoStrings.Split allowOriginsEnv ",") in
  (allowed ->
   route.originMiddleware (initAllowedOrigins allowOriginsEnv) next c w = next c w) /\
  (~ allowed ->
   route.originMiddleware (initAllowedOrigins allowOriginsEnv) next c w
   = ((Ok (errorResponse 403 "Origem não permitida"), w), [])).
Proof.
  intros origin allowed. unfold route.originMiddleware. cbn zeta. fold origin.
  pose proof (validateOrigin_init allowOriginsEnv origin) as H. fold allowed in H.
  destruct (validateOrigin _ origin); cbn; split; try done.
  - intros Hn. destruct Hn. by apply H.
  - intros Ha. apply H in Ha. done.
Qed.

Example origin_listed :
  validateOrigin (initAllowedOrigins "https://a.example,https://b.example")
    "https://b.example" = true.
Proof. reflexivity. Qed.

Example origin_entries_are_not_trimmed :
  validateOrigin (initAllowedOrigins "https://a.example, https://b.example")
    "https://b.example" = false.
Proof. reflexivity. Qed.

Example origin_star_among_entries :
  validateOrigin (initAllowedOrigins "*,https://a.example") "https://b.example" = false.
Proof. reflexivity. Qed.

(** ** The acquisition of the input *)

Section AcquisitionFacts.

Context (net : http.Network).

Lemma EncodeToString_not_empty (data : list byte) :
  data <> [] -> base64.EncodeToString data <> "".
Proof. by destruct data as [|b0 [|b1 [|b2 rest]]]. Qed.

(** What one response carries in base64 is accepted as the "base64" field
    of the next request: without an upload, [getInputData] gives back the
    bytes that were encoded, if there are any, and sends no request. *)
Theorem getInputData_decodes_own_encoding (c : gin.Context) (data : list byte) :
  gin.file c = None ->
  gin.postForm c !! "base64" = Some (base64.EncodeToString data) ->
  data <> [] ->
  getInputData net c = (inr data, []).
Proof.
  intros Hfile Hform Hdata. unfold getInputData, gin.PostForm.
  rewrite Hfile, Hform. cbn [default from_option id].
  destruct (String.eqb_spec (base64.EncodeToString data) "") as [He|_].
  - by apply EncodeToString_not_empty in He.
  - cbn [negb]. unfold base64.DecodeString. by rewrite decodeFrom_EncodeToString.
Qed.

End AcquisitionFacts.

Lemma getInputData_decodes_own_encoding_witness :
  getInputData {| http.NewRequest := fun _ => None; http.Do := fun _ => inl "offline" |}
    {| gin.Header := fun _ => ""; gin.file := None;
       gin.postForm := {[ "base64" := "TWFuTQ==" ]}; gin.query := ∅;
       gin.bindJSON := None |}
  = (inr [x4d; x61; x6e; x4d], []).
Proof.
  apply (getInputData_decodes_own_encoding _ _ [x4d; x61; x6e; x4d]).
  - reflexivity.
  - reflexivity.
  - discriminate.
Defined.

(** ** The handlers with their acquisition *)

Section RouteFacts.

Context (net : http.Network) (env : Env) (apiKey : string).

(** Splits on the three tests of [validateAPIKey], which reads nothing of
    the request but the "apikey" header. *)
Local Ltac key_cases :=
  unfold keyAccepted, validateAPIKey;
  cbn [route.acquired apikeyHeader];
  destruct (String.eqb apiKey ""); [reflexivity|];
  destruct (String.eqb (gin.GetHeader _ "apikey") ""); [reflexivity|];
  destruct (negb (String.eqb (gin.GetHeader _ "apikey") apiKey)); [reflexivity|].

Lemma urlFirstHandler_core fetch conversion key format c w :
  route.urlFirstHandler net apiKey fetch conversion key format c w
  = (match validateAPIKey apiKey (route.acquired c (inl "") None) with
     | Some r => (Ok r, w)
     | None =>
         match fst (fst (urlFirst net fetch c)) with
         | inl e => (Ok (errorResponse 400 e), w)
         | inr inputData =>
             processConversion
               (conversion inputData (snd (urlFirst net fetch c))) key format w
         end
     end,
     if keyAccepted apiKey c then snd (fst (urlFirst net fetch c)) else []).
Proof.
  unfold route.urlFirstHandler. key_cases.
  by destruct (urlFirst net fetch c) as [[[e|inputData] fetched] jsonFormat].
Qed.

Lemma handlers_run_core_on_acquired_input_aux (c : gin.Context) w :
  route.processAudio net env apiKey c w
  = (processAudio env apiKey
       (route.acquired c (fst (getInputData net c)) (gin.postForm c !! "input_format")) w,
     if keyAccepted apiKey c then snd (getInputData net c) else []) /\
  route.processGifToMp4 net env apiKey c w
  = (processGifToMp4 env apiKey
       (route.acquired c (fst (fst (urlFirst net (fetchGifFromURL net) c))) None) w,
     if keyAccepted apiKey c then snd (fst (urlFirst net (fetchGifFromURL net) c)) else []) /\
  route.processVideoToMp4 net env apiKey c w
  = (processVideoToMp4 env apiKey
       (route.acquired c (fst (fst (urlFirst net (fetchAudioFromURL net) c)))
          (Some (default (gin.DefaultPostForm c "input_format" "mp4")
                   (snd (urlFirst net (fetchAudioFromURL net) c))))) w,
     if keyAccepted apiKey c then snd (fst (urlFirst net (fetchAudioFromURL net) c)) else []) /\
  route.processImageToPng net env apiKey c w
  = (processImageToPng env apiKey
       (route.acquired c (fst (fst (urlFirst net (fetchImageFromURL net) c))) None) w,
     if keyAccepted apiKey c then snd (fst (urlFirst net (fetchImageFromURL net) c)) else []).
Proof.
  split; [|split; [|split]].
  - unfold route.processAudio, processAudio. key_cases.
    destruct (getInputData net c) as [[e|inputData] fetched]; [done|].
    cbn [fst snd route.acquired payload output_format input_format].
    unfold gin.DefaultPostForm.
    by destruct (convertAudio _ _ _ _ w) as [[[??]|?|?] ?].
  - unfold route.processGifToMp4, processGifToMp4. rewrite urlFirstHandler_core.
    key_cases. cbn [route.acquired payload].
    by destruct (fst (fst (urlFirst net _ c))).
  - unfold route.processVideoToMp4, processVideoToMp4. rewrite urlFirstHandler_core.
    key_cases. cbn [route.acquired payload].
    by destruct (fst (fst (urlFirst net _ c))).
  - unfold route.processImageToPng, processImageToPng. rewrite urlFirstHandler_core.
    key_cases. cbn [route.acquired payload].
    by destruct (fst (fst (urlFirst net _ c))).
Qed.

(** Each handler is its core, the part from the acquired input to the
    response, run on what its acquisition found: [getInputData] for the
    audio, the URL-first search for the three others.  The requests the
    handler sends are those of the acquisition, and none at all when the
    key is not accepted. *)
Theorem handlers_run_core_on_acquired_input (c : gin.Context) w :
  route.processAudio net env apiKey c w
  = (processAudio env apiKey
       (route.acquired c (fst (getInputData net c)) (gin.postForm c !! "input_format")) w,
     if keyAccepted apiKey c then snd (getInputData net c) else []) /\
  route.processGifToMp4 net env apiKey c w
  = (processGifToMp4 env apiKey
       (route.acquired c (fst (fst (urlFirst net (fetchGifFromURL net) c))) None) w,
     if keyAccepted apiKey c then snd (fst (urlFirst net (fetchGifFromURL net) c)) else []) /\
  route.processVideoToMp4 net env apiKey c w
  = (processVideoToMp4 env apiKey
       (route.acquired c (fst (fst (urlFirst net (fetchAudioFromURL net) c)))
          (Some (default (gin.DefaultPostForm c "input_format" "mp4")
                   (snd (urlFirst net (fetchAudioFromURL net) c))))) w,
     if keyAccepted apiKey c then snd (fst (urlFirst net (fetchAudioFromURL net) c)) else []) /\
  route.processImageToPng net env apiKey c w
  = (processImageToPng env apiKey
       (route.acquired c (fst (fst (urlFirst net (fetchImageFromURL net) c))) None) w,
     if keyAccepted apiKey c then snd (fst (urlFirst net (fetchImageFromURL net) c)) else []).
Proof. apply handlers_run_core_on_acquired_input_aux. Qed.

(** With an upload and a URL in the form of the same request, the audio
    handler converts the upload and sends no request, while the GIF handler
    fetches the URL and leaves the upload aside. *)
Theorem upload_or_url_first (c : gin.Context) w upload url :
  validateAPIKey apiKey (route.acquired c (inl "") None) = None ->
  gin.file c = Some (inr upload) ->
  gin.postForm c !! "url" = Some url ->
  url <> "" ->
  route.processAudio net env apiKey c w
  = (processAudio env apiKey
       (route.acquired c (inr upload) (gin.postForm c !! "input_format")) w, []) /\
  route.processGifToMp4 net env apiKey c w
  = (processGifToMp4 env apiKey
       (route.acquired c (fst (fetchGifFromURL net url)) None) w,
     snd (fetchGifFromURL net url)).
Proof.
  intros Hkey Hfile Hform Hurl.
  destruct (handlers_run_core_on_acquired_input_aux c w) as (Ha & Hg & _).
  rewrite Ha, Hg. unfold keyAccepted. rewrite Hkey.
  unfold getInputData, urlFirst, gin.PostForm. rewrite Hfile, Hform.
  cbn [default from_option id fst snd].
  by destruct (String.eqb_spec url "").
Qed.

(** [fetchGifFromURL] and [fetchImageFromURL] return bytes only when the
    URL is not empty, a request could be built and the answer to it, sent
    with the browser's user agent, is a 200 whose body could be read; the
    bytes are that body, and that request is the only one sent. *)
Theorem fetch_returns_only_a_200_body emptyURL timeout url data :
  fst (fetchWithAgent net emptyURL timeout url) = inr data ->
  url <> "" /\
  http.NewRequest net url = None /\
  exists resp,
    http.Do net {| http.URL := url; http.UserAgent := browserAgent;
                   http.Timeout := timeout |} = inr resp /\
    http.StatusCode resp = 200 /\
    http.Body resp = inr data /\
    snd (fetchWithAgent net emptyURL timeout url)
    = [{| http.URL := url; http.UserAgent := browserAgent; http.Timeout := timeout |}].
Proof.
  unfold fetchWithAgent.
  destruct (String.eqb_spec url "") as [->|Hurl]; [done|].
  destruct (http.NewRequest net url); [done|].
  destruct (http.Do net _) as [err|resp] eqn:Hdo; [done|].
  destruct (Nat.eqb_spec (http.StatusCode resp) 200) as [Hs|Hs]; [|done]. cbn [negb].
  destruct (http.Body resp) as [err|body] eqn:Hbody; [done|].
  cbn. intros [= <-]. repeat split; try done. by exists resp.
Qed.

(** A URL whose server answers with a status other than 200: the GIF and the
    image handler answer 400 with the status and convert nothing, while the
    video handler, which fetches with [fetchAudioFromURL], hands the body of
    that answer to the conversion. *)
Theorem status_checked_for_gif_and_image_only (c : gin.Context) w url resp data :
  validateAPIKey apiKey (route.acquired c (inl "") None) = None ->
  gin.postForm c !! "url" = Some url ->
  url <> "" ->
  http.NewRequest net url = None ->
  (forall req, http.URL req = url -> http.Do net req = inr resp) ->
  http.Body resp = inr data ->
  http.StatusCode resp <> 200 ->
  let refused :=
    errorResponse 400 ("estado de respuesta inválido: "
                       +:+ NilZero.string_of_uint (Nat.to_uint (http.StatusCode resp))) in
  route.processGifToMp4 net env apiKey c w
  = ((Ok refused, w),
     [{| http.URL := url; http.UserAgent := browserAgent; http.Timeout := 60 |}]) /\
  route.processImageToPng net env apiKey c w
  = ((Ok refused, w),
     [{| http.URL := url; http.UserAgent := browserAgent; http.Timeout := 30 |}]) /\
  route.processVideoToMp4 net env apiKey c w
  = (processConversion
       (convertVideoToMp4 env data (gin.DefaultPostForm c "input_format" "mp4"))
       "video" "mp4" w,
     [{| http.URL := url; http.UserAgent := ""; http.Timeout := 0 |}]).
Proof.
  intros Hkey Hform Hurl Hnew Hdo Hbody Hstatus refused.
  unfold route.processGifToMp4, route.processImageToPng, route.processVideoToMp4,
    route.urlFirstHandler.
  rewrite Hkey. unfold urlFirst, gin.PostForm. rewrite Hform.
  cbn [default from_option id].
  destruct (String.eqb_spec url "") as [?|_]; [done|]. cbn [negb].
  unfold fetchGifFromURL, fetchImageFromURL, fetchWithAgent, fetchAudioFromURL.
  destruct (String.eqb_spec url "") as [?|_]; [done|].
  rewrite Hnew, !Hdo by done.
  destruct (Nat.eqb_spec (http.StatusCode resp) 200) as [?|_]; [done|]. cbn [negb].
  by rewrite Hbody.
Qed.

End RouteFacts.

Lemma upload_or_url_first_witness :
  let net := {| http.NewRequest := fun _ => None;
                http.Do := fun _ => inr {| http.StatusCode := 200;
                                           http.Body := inr [x47; x49; x46] |} |} in
  let c := {| gin.Header := fun key => if String.eqb key "apikey" then "k" else "";
              gin.file := Some (inr [x01; x02]);
              gin.postForm := {[ "url" := "http://h/a.gif" ]};
              gin.query := ∅; gin.bindJSON := None |} in
  route.processAudio net (Scenario.echo Scenario.progress) "k" c Scenario.initial
  = (processAudio (Scenario.echo Scenario.progress) "k"
       (route.acquired c (inr [x01; x02]) (gin.postForm c !! "input_format"))
       Scenario.initial, []) /\
  route.processGifToMp4 net (Scenario.echo Scenario.progress) "k" c Scenario.initial
  = (processGifToMp4 (Scenario.echo Scenario.progress) "k"
       (route.acquired c (fst (fetchGifFromURL net "http://h/a.gif")) None)
       Scenario.initial,
     snd (fetchGifFromURL net "http://h/a.gif")).
Proof.
  intros net c.
  apply (upload_or_url_first net (Scenario.echo Scenario.progress) "k" c Scenario.initial
           [x01; x02] "http://h/a.gif").
  - reflexivity.
  - reflexivity.
  - reflexivity.
  - discriminate.
Defined.

Lemma fetch_returns_only_a_200_body_witness :
  let net := {| http.NewRequest := fun _ => None;
                http.Do := fun _ => inr {| http.StatusCode := 200;
                                           http.Body := inr [x47; x49; x46] |} |} in
  "http://h/a.gif" <> "" /\
  http.NewRequest net "http://h/a.gif" = None /\
  exists resp,
    http.Do net {| http.URL := "http://h/a.gif"; http.UserAgent := browserAgent;
                   http.Timeout := 60 |} = inr resp /\
    http.StatusCode resp = 200 /\
    http.Body resp = inr [x47; x49; x46] /\
    snd (fetchWithAgent net "URL vazia fornecida" 60 "http://h/a.gif")
    = [{| http.URL := "http://h/a.gif"; http.UserAgent := browserAgent;
          http.Timeout := 60 |}].
Proof.
  intros net.
  apply (fetch_returns_only_a_200_body net "URL vazia fornecida" 60 "http://h/a.gif"
           [x47; x49; x46]).
  reflexivity.
Defined.

Lemma status_checked_for_gif_and_image_only_witness :
  let net := {| http.NewRequest := fun _ => None;
                http.Do := fun _ => inr {| http.StatusCode := 404;
                                           http.Body := inr [x4e; x6f] |} |} in
  let c := {| gin.Header := fun key => if String.eqb key "apikey" then "k" else "";
              gin.file := None;
              gin.postForm := {[ "url" := "http://h/gone" ]};
              gin.query := ∅; gin.bindJSON := None |} in
  let refused := errorResponse 400 "estado de respuesta inválido: 404" in
  route.processGifToMp4 net Scenario.failing "k" c Scenario.initial
  = ((Ok refused, Scenario.initial),
     [{| http.URL := "http://h/gone"; http.UserAgent := browserAgent; http.Timeout := 60 |}]) /\
  route.processImageToPng net Scenario.failing "k" c Scenario.initial
  = ((Ok refused, Scenario.initial),
     [{| http.URL := "http://h/gone"; http.UserAgent := browserAgent; http.Timeout := 30 |}]) /\
  route.processVideoToMp4 net Scenario.failing "k" c Scenario.initial
  = (processConversion
       (convertVideoToMp4 Scenario.failing [x4e; x6f] (gin.DefaultPostForm c "input_format" "mp4"))
       "video" "mp4" Scenario.initial,
     [{| http.URL := "http://h/gone"; http.UserAgent := ""; http.Timeout := 0 |}]).
Proof.
  intros net c refused.
  apply (status_checked_for_gif_and_image_only net Scenario.failing "k" c Scenario.initial
           "http://h/gone" {| http.StatusCode := 404; http.Body := inr [x4e; x6f] |}
           [x4e; x6f]).
  - reflexivity.
  - reflexivity.
  - discriminate.
  - reflexivity.
  - intros req Hreq. reflexivity.
  - reflexivity.
  - discriminate.
Defined.

(** ** The audio conversion and the pipes *)

(** Whatever the output tag, the audio conversion runs one command that
    gets the payload on its standard input, has both output streams
    collected, and is told to read "pipe:0" and to write "pipe:1"; it
    creates no file. *)
Theorem audio_transcoder_reads_stdin env inputData inputFormat outputFormat w :
  exists middle,
    observe (convertAudio env inputData inputFormat outputFormat) w
    = [EvRun {| exec.Path := "ffmpeg";
                exec.Args := ["ffmpeg"; "-i"; "pipe:0"] ++ middle ++ ["pipe:1"];
                exec.Stdin := Some inputData;
                exec.Stdout := true;
                exec.Stderr := true |}].
Proof.
  rewrite convertAudio_events. unfold audioCommand.
  repeat match goal with
         | |- context [String.eqb outputFormat ?tag] =>
             destruct (String.eqb outputFormat tag)
         end.
  - by exists ["-f"; "mp3"].
  - by exists ["-f"; "wav"].
  - by exists ["-c:a"; "aac"; "-b:a"; "128k"; "-f"; "adts"].
  - by exists ["-c:a"; "libopencore_amrnb"; "-b:a"; "12.2k"; "-f"; "amr"].
  - by exists ["-c:a"; "aac"; "-b:a"; "128k"; "-f"; "ipod"].
  - by exists ["-c:a"; "libopus"; "-b:a"; "16k"; "-vbr"; "on";
               "-compression_level"; "10"; "-ac"; "1"; "-ar"; "16000"; "-f"; "ogg"].
Qed.

(** ** Base64 at work *)

Example base64_encode_padding :
  base64.EncodeToString [x4d; x61; x6e; x4d; x61] = "TWFuTWE=".
Proof. by vm_compute. Qed.

Example base64_decode_skips_line_ends :
  base64.DecodeString "TWFu
TQ==" = Ok [x4d; x61; x6e; x4d].
Proof. by vm_compute. Qed.

Example base64_decode_missing_padding :
  base64.DecodeString "AAAAAA" = Err "illegal base64 data at input byte 4"
  /\ base64.DecodeString "AA=" = Err "illegal base64 data at input byte 3"
  /\ base64.DecodeString "AAAAAA=" = Err "illegal base64 data at input byte 7".
Proof. by vm_compute. Qed.

Example base64_decode_misplaced_padding :
  base64.DecodeString "A=" = Err "illegal base64 data at input byte 1"
  /\ base64.DecodeString "=AAA" = Err "illegal base64 data at input byte 0"
  /\ base64.DecodeString "AA=A" = Err "illegal base64 data at input byte 2"
  /\ base64.DecodeString "AA==A" = Err "illegal base64 data at input byte 4"
  /\ base64.DecodeString "AAA=AAAA" = Err "illegal base64 data at input byte 4"
  /\ base64.DecodeString "YWJjZA=====" = Err "illegal base64 data at input byte 8".
Proof. by vm_compute. Qed.

Example base64_decode_foreign_character :
  base64.DecodeString "TW!u" = Err "illegal base64 data at input byte 2".
Proof. by vm_compute. Qed.
